(** * EchoAI lead-qualification models: a shallow embedding

    The repository's lead models ([app/models/enhanced_lead.py] and
    [app/models/lead.py]) are Pydantic (v1 API) schemas: every class is a
    record whose construction runs, field by field and in declaration
    order, the constraints given to [Field(...)] and then the functions
    decorated with [@validator].  This file embeds those constructions as
    Rocq functions and proves the properties the specification states about
    them.

    Conventions of the embedding:
    - a Python [float] is a binary64 value, Rocq's primitive [float];
    - a Python [int] is a [Z];
    - a Python [str] is a list of Unicode code points;
    - a naive [datetime] is its number of microseconds on the time line;
    - a keyword argument that the caller may leave out is an [option];
    - constructor arguments already have the Python type of their field
      annotation (Pydantic's coercion of other types is not modelled). *)

From Stdlib Require Import Floats ZArith NArith List Bool Lia String Ascii.
Import ListNotations.

(** Decimal literals such as [0.8] denote, as in Python, the nearest
    binary64 value. *)
Set Warnings "-inexact-float".

(* ================================================================== *)
(** ** Python floats: comparisons, [min] and [max] *)

Module PyFloat.

Local Open Scope float_scope.

(** [a <= b], [a >= b], [a < b], [a > b] on Python floats are the IEEE 754
    comparisons: every comparison with NaN is false. *)
Definition le (a b : float) : bool := a <=? b.
Definition lt (a b : float) : bool := a <? b.
Definition ge (a b : float) : bool := le b a.
Definition gt (a b : float) : bool := lt b a.

(** The builtin [min(a, b)]: the first argument is kept unless the second
    one compares strictly below it. *)
Definition py_min (a b : float) : float := if lt b a then b else a.

(** The builtin [max(a, b)]: the first argument is kept unless the second
    one compares strictly above it. *)
Definition py_max (a b : float) : float := if gt b a then b else a.

(** The chained comparison [lo <= v <= hi]. *)
Definition between (lo v hi : float) : bool := le lo v && le v hi.

(** [max(lo, min(hi, v))], the clamp idiom of the models and of the
    scoring aggregator. *)
Definition clamp (lo hi v : float) : float := py_max lo (py_min hi v).

(** *** The order on binary64 values, from its specification *)

Lemma SFcompare_antisym (x y : spec_float) :
  SFcompare y x = option_map CompOpp (SFcompare x y).
Proof.
  destruct x as [sx|sx| |sx mx ex], y as [sy|sy| |sy my ey]; simpl;
    try reflexivity;
    try (destruct sx; reflexivity); try (destruct sy; reflexivity);
    try (destruct sx, sy; reflexivity).
  destruct sx, sy; simpl; try reflexivity;
    rewrite (Z.compare_antisym ex ey);
    destruct (ex ?= ey)%Z; simpl; try reflexivity;
    rewrite (Pos.compare_cont_antisym _ _ Eq); simpl;
    destruct (Pos.compare_cont Eq mx my); reflexivity.
Qed.

Lemma SFcompare_refl (x : spec_float) :
  x <> S754_nan -> SFcompare x x = Some Eq.
Proof.
  destruct x as [s|s| |s m e]; simpl; intros H; try reflexivity.
  - destruct s; reflexivity.
  - congruence.
  - destruct s; rewrite Z.compare_refl, Pos.compare_cont_refl; reflexivity.
Qed.

Definition SFis_zero (x : spec_float) : Prop :=
  match x with S754_zero _ => True | _ => False end.

(** Two values that compare equal are the same value, or are the two
    zeros [+0.0] and [-0.0]. *)
Lemma SFcompare_Eq_inv (x y : spec_float) :
  SFcompare x y = Some Eq -> x = y \/ (SFis_zero x /\ SFis_zero y).
Proof.
  destruct x as [sx|sx| |sx mx ex], y as [sy|sy| |sy my ey]; simpl;
    try discriminate; try (now right);
    try (destruct sx; discriminate); try (destruct sy; discriminate).
  - destruct sx, sy; try discriminate; now left.
  - destruct sx, sy; try discriminate;
      destruct (ex ?= ey)%Z eqn:He; try discriminate;
      apply Z.compare_eq in He; subst ey;
      destruct (Pos.compare_cont Eq mx my) eqn:Hm; try discriminate;
      apply Pcompare_Eq_eq in Hm; subst my; now left.
Qed.

Lemma compare_not_nan_l (x y : spec_float) c :
  SFcompare x y = Some c -> x <> S754_nan.
Proof. destruct x; simpl; congruence. Qed.

Lemma compare_not_nan_r (x y : spec_float) c :
  SFcompare x y = Some c -> y <> S754_nan.
Proof. destruct x, y; simpl; congruence. Qed.

Lemma lt_le (a b : float) : lt a b = true -> le a b = true.
Proof.
  unfold lt, le. rewrite ltb_spec, leb_spec.
  unfold SFltb, SFleb.
  destruct (SFcompare (Prim2SF a) (Prim2SF b)) as [[ | | ]|];
    intros H; try reflexivity; discriminate H.
Qed.

Lemma le_refl_l (a b : float) : le a b = true -> le a a = true.
Proof.
  unfold le. rewrite !leb_spec. unfold SFleb.
  destruct (SFcompare (Prim2SF a) (Prim2SF b)) as [c|] eqn:H; [|discriminate].
  intros _. now rewrite (SFcompare_refl _ (compare_not_nan_l _ _ _ H)).
Qed.

Lemma le_refl_r (a b : float) : le a b = true -> le b b = true.
Proof.
  unfold le. rewrite !leb_spec. unfold SFleb.
  destruct (SFcompare (Prim2SF a) (Prim2SF b)) as [c|] eqn:H; [|discriminate].
  intros _. now rewrite (SFcompare_refl _ (compare_not_nan_r _ _ _ H)).
Qed.

(** Python's [a == b] on floats. *)
Definition eq (a b : float) : bool := a =? b.

Lemma le_not_lt_eq (a b : float) :
  le a b = true -> lt a b = false -> eq a b = true /\ eq b a = true.
Proof.
  unfold le, lt, eq. rewrite leb_spec, ltb_spec, !FloatAxioms.eqb_spec.
  unfold SFleb, SFltb, SFeqb.
  rewrite (SFcompare_antisym (Prim2SF a) (Prim2SF b)).
  destruct (SFcompare (Prim2SF a) (Prim2SF b)) as [[ | | ]|]; simpl;
    intros H1 H2; try discriminate; split; reflexivity.
Qed.

Lemma eq_refl_of_le (a b : float) : le a b = true -> eq b b = true.
Proof.
  unfold le, eq. rewrite leb_spec, FloatAxioms.eqb_spec. unfold SFleb, SFeqb.
  destruct (SFcompare (Prim2SF a) (Prim2SF b)) as [c|] eqn:H; [|discriminate].
  intros _. now rewrite (SFcompare_refl _ (compare_not_nan_r _ _ _ H)).
Qed.

Definition is_zero (a : float) : Prop := SFis_zero (Prim2SF a).

(** [a == b] holds only between identical values and between the two
    zeros. *)
Lemma eq_cases (a b : float) :
  eq a b = true -> a = b \/ (is_zero a /\ is_zero b).
Proof.
  unfold eq, is_zero. rewrite FloatAxioms.eqb_spec. unfold SFeqb.
  destruct (SFcompare (Prim2SF a) (Prim2SF b)) as [[ | | ]|] eqn:H;
    try discriminate.
  intros _. destruct (SFcompare_Eq_inv _ _ H) as [E|Z].
  - left. now apply Prim2SF_inj.
  - now right.
Qed.

(** A zero of either sign compares as [0.0] does. *)
Lemma zero_lt_l (v c : float) : is_zero v -> lt v c = lt 0 c.
Proof.
  unfold is_zero, lt. rewrite !ltb_spec. unfold SFltb.
  change (Prim2SF 0) with (S754_zero false).
  destruct (Prim2SF v) as [s| | |]; simpl; try contradiction.
  intros _. destruct (Prim2SF c); reflexivity.
Qed.

Lemma zero_lt_r (v c : float) : is_zero v -> lt c v = lt c 0.
Proof.
  unfold is_zero, lt. rewrite !ltb_spec. unfold SFltb.
  change (Prim2SF 0) with (S754_zero false).
  destruct (Prim2SF v) as [s| | |]; simpl; try contradiction.
  intros _. destruct (Prim2SF c); reflexivity.
Qed.

(** *** Clamping *)

(** Whatever the float [v] (NaN and the infinities included), its clamp
    lies between the bounds, as soon as the bounds are ordered. *)
Lemma clamp_between (lo hi v : float) :
  le lo hi = true -> between lo (clamp lo hi v) hi = true.
Proof.
  intros Hb. unfold between, clamp, py_max, py_min, gt.
  destruct (lt v hi) eqn:Hv.
  - destruct (lt lo v) eqn:Hl.
    + now rewrite (lt_le _ _ Hl), (lt_le _ _ Hv).
    + now rewrite Hb, (le_refl_l _ _ Hb).
  - destruct (lt lo hi) eqn:Hl.
    + now rewrite Hb, (le_refl_r _ _ Hb).
    + now rewrite Hb, (le_refl_l _ _ Hb).
Qed.

(** Clamping twice is clamping once, for every float and every pair of
    bounds. *)
Lemma clamp_idempotent (lo hi v : float) :
  clamp lo hi (clamp lo hi v) = clamp lo hi v.
Proof.
  unfold clamp, py_max, py_min, gt.
  destruct (lt v hi) eqn:Hv.
  - destruct (lt lo v) eqn:Hl.
    + now rewrite Hv, Hl.
    + destruct (lt lo hi) eqn:Hh.
      * destruct (lt lo lo); reflexivity.
      * now rewrite Hh.
  - destruct (lt lo hi) eqn:Hh.
    + destruct (lt hi hi); now rewrite Hh.
    + now rewrite Hh, Hh.
Qed.

(** On a value already between strictly ordered bounds the clamp returns
    a float that compares equal to it. *)
Lemma clamp_in_range (lo hi v : float) :
  lt lo hi = true -> between lo v hi = true ->
  eq (clamp lo hi v) v = true.
Proof.
  intros Hlh Hb. unfold between in Hb.
  apply andb_true_iff in Hb. destruct Hb as [H1 H2].
  unfold clamp, py_max, py_min, gt.
  destruct (lt v hi) eqn:Hv.
  - destruct (lt lo v) eqn:Hl.
    + exact (eq_refl_of_le _ _ H1).
    + exact (proj1 (le_not_lt_eq _ _ H1 Hl)).
  - rewrite Hlh. exact (proj2 (le_not_lt_eq _ _ H2 Hv)).
Qed.

End PyFloat.

(* ================================================================== *)
(** ** Python strings *)

Module PyStr.

(** A character is its Unicode code point; a [str] is the list of its
    characters, so that [len] counts code points as Python does. *)
Definition char := N.
Definition str := list char.

Definition of_string (s : string) : str :=
  map N_of_ascii (list_ascii_of_string s).

Definition len (s : str) : Z := Z.of_nat (List.length s).

(** The truth value of a string in a condition: non-empty. *)
Definition truthy (s : str) : bool :=
  match s with [] => false | _ :: _ => true end.

(** [c in s] for a single character [c]. *)
Definition contains (c : char) (s : str) : bool := existsb (N.eqb c) s.

(** [str.isspace] on one character: the code points CPython classifies as
    whitespace. *)
Definition isspace (c : char) : bool :=
  ((0x09 <=? c) && (c <=? 0x0D) || (0x1C <=? c) && (c <=? 0x20)
   || (c =? 0x85) || (c =? 0xA0) || (c =? 0x1680)
   || (0x2000 <=? c) && (c <=? 0x200A)
   || (c =? 0x2028) || (c =? 0x2029) || (c =? 0x202F)
   || (c =? 0x205F) || (c =? 0x3000))%N.

Fixpoint lstrip (s : str) : str :=
  match s with
  | [] => []
  | c :: r => if isspace c then lstrip r else s
  end.

Definition rstrip (s : str) : str := rev (lstrip (rev s)).

(** [s.strip()]: leading and trailing whitespace removed. *)
Definition strip (s : str) : str := rstrip (lstrip s).

(** A string "of only whitespace": every character is whitespace (the
    empty string included). *)
Definition all_space (s : str) : bool := forallb isspace s.

Definition head_ok (s : str) : Prop :=
  match s with [] => True | c :: _ => isspace c = false end.

Lemma lstrip_head (s : str) : head_ok (lstrip s).
Proof.
  induction s as [|c r IH]; simpl; [exact I|].
  destruct (isspace c) eqn:E; [exact IH|exact E].
Qed.

Lemma lstrip_nil (s : str) : lstrip s = [] <-> all_space s = true.
Proof.
  induction s as [|c r IH]; simpl; [tauto|].
  destruct (isspace c); simpl; [exact IH|].
  split; discriminate.
Qed.

Lemma lstrip_all_space (s : str) : all_space (lstrip s) = all_space s.
Proof.
  induction s as [|c r IH]; simpl; [reflexivity|].
  destruct (isspace c) eqn:E; simpl; [exact IH|now rewrite E].
Qed.

Lemma all_space_rev (s : str) : all_space (rev s) = all_space s.
Proof.
  unfold all_space. induction s as [|c r IH]; simpl; [reflexivity|].
  rewrite forallb_app, IH. simpl. rewrite andb_true_r. apply andb_comm.
Qed.

Lemma lstrip_snoc (l : str) (c : char) :
  isspace c = false -> lstrip (l ++ [c]) = lstrip l ++ [c].
Proof.
  intros Hc. induction l as [|d r IH]; simpl.
  - now rewrite Hc.
  - destruct (isspace d); [exact IH|reflexivity].
Qed.

Lemma rstrip_cons (c : char) (r : str) :
  isspace c = false -> rstrip (c :: r) = c :: rstrip r.
Proof.
  intros Hc. unfold rstrip. simpl.
  rewrite (lstrip_snoc _ _ Hc), rev_app_distr. reflexivity.
Qed.

(** [strip] returns the empty string exactly on whitespace-only input. *)
Lemma strip_nil (s : str) : strip s = [] <-> all_space s = true.
Proof.
  unfold strip, rstrip.
  rewrite <- (lstrip_all_space s), <- (all_space_rev (lstrip s)),
    <- lstrip_nil.
  split; intros H.
  - apply (f_equal (@rev char)) in H. now rewrite rev_involutive in H.
  - now rewrite H.
Qed.

Lemma truthy_strip (s : str) : truthy (strip s) = negb (all_space s).
Proof.
  destruct (all_space s) eqn:E.
  - apply strip_nil in E. now rewrite E.
  - destruct (strip s) eqn:S; [|reflexivity].
    apply strip_nil in S. congruence.
Qed.

(** A stripped string does not start with whitespace... *)
Lemma strip_head (s : str) : head_ok (strip s).
Proof.
  unfold strip. pose proof (lstrip_head s) as H.
  destruct (lstrip s) as [|c r]; [exact I|].
  simpl in H. rewrite (rstrip_cons _ _ H). exact H.
Qed.

(** ... and does not end with it. *)
Lemma strip_last (s : str) : head_ok (rev (strip s)).
Proof.
  unfold strip, rstrip. rewrite rev_involutive. apply lstrip_head.
Qed.

Lemma all_space_false (s : str) :
  all_space s = false <-> exists c, In c s /\ isspace c = false.
Proof.
  unfold all_space. induction s as [|c r IH]; simpl.
  - split; [discriminate|]. intros [c [[] _]].
  - destruct (isspace c) eqn:E; simpl.
    + rewrite IH. split.
      * intros [d [Hd Hs]]. exists d. auto.
      * intros [d [[->|Hd] Hs]]; [congruence|]. exists d. auto.
    + split; [|reflexivity]. intros _. exists c. auto.
Qed.

(** On ASCII text [str.lower] maps the letters [A]..[Z] to [a]..[z] and
    [str.isdigit] holds of [0]..[9]; both are used to instantiate the
    Unicode tables the models are parameterised by. *)
Definition ascii_lower (s : str) : str :=
  map (fun c => if ((65 <=? c) && (c <=? 90))%N then (c + 32)%N else c) s.

Definition ascii_isdigit (c : char) : bool := ((48 <=? c) && (c <=? 57))%N.

End PyStr.

(* ================================================================== *)
(** ** Pydantic: field validation and model construction *)

Module Pydantic.

(** The bound reported by a numeric constraint. *)
Inductive number :=
| NInt (z : Z)
| NFloat (f : float).

(** The errors the lead models can raise. *)
Inductive error :=
| MissingError
| NumberNotGeError (limit_value : number)
| NumberNotLeError (limit_value : number)
| AnyStrMinLengthError (limit_value : Z)
| AnyStrMaxLengthError (limit_value : Z)
| ValueError (msg : string).

(** The outcome of the validators of one field: they run in sequence and
    the first error raised ends the sequence. *)
Inductive result (A : Type) :=
| Ok (a : A)
| Err (e : error).
Arguments Ok {A} a.
Arguments Err {A} e.

Definition bind {A B} (r : result A) (k : A -> result B) : result B :=
  match r with
  | Ok a => k a
  | Err e => Err e
  end.

(** [Field(..., ge=lo)] on a float: [not v >= lo] raises. *)
Definition float_ge (lo v : float) : result float :=
  if PyFloat.ge v lo then Ok v else Err (NumberNotGeError (NFloat lo)).

(** [Field(..., le=hi)] on a float: [not v <= hi] raises. *)
Definition float_le (hi v : float) : result float :=
  if PyFloat.le v hi then Ok v else Err (NumberNotLeError (NFloat hi)).

(** [Field(..., ge=lo, le=hi)] on a float: the lower bound is checked
    first. *)
Definition float_range (lo hi v : float) : result float :=
  bind (float_ge lo v) (float_le hi).

(** [Field(..., ge=lo)] on an int. *)
Definition int_ge (lo v : Z) : result Z :=
  if (lo <=? v)%Z then Ok v else Err (NumberNotGeError (NInt lo)).

(** [Field(..., min_length=lo, max_length=hi)] on a string; either bound
    may be absent.  The minimum is checked first. *)
Definition str_length (lo hi : option Z) (v : PyStr.str) : result PyStr.str :=
  match lo with
  | Some l => if (PyStr.len v <? l)%Z then Err (AnyStrMinLengthError l)
              else match hi with
                   | Some h => if (h <? PyStr.len v)%Z
                               then Err (AnyStrMaxLengthError h) else Ok v
                   | None => Ok v
                   end
  | None => match hi with
            | Some h => if (h <? PyStr.len v)%Z
                        then Err (AnyStrMaxLengthError h) else Ok v
            | None => Ok v
            end
  end.

(** A field without constraint keeps a value of its type as it is. *)
Definition any {A} (v : A) : result A := Ok v.

(** A required field ([Field(...)]): leaving it out is an error. *)
Definition required {A B} (validate : A -> result B) (arg : option A)
  : result B :=
  match arg with
  | Some v => validate v
  | None => Err MissingError
  end.

(** A field with a default: when left out, the default is stored without
    being validated. *)
Definition defaulted {A} (default : A) (validate : A -> result A)
           (arg : option A) : result A :=
  match arg with
  | Some v => validate v
  | None => Ok default
  end.

(** Model construction validates every field and collects the errors of
    all of them, each under the name of its field; the model is built
    only when there is none. *)
Definition errors := list (string * error).

Inductive validation (A : Type) :=
| Valid (a : A)
| Invalid (es : errors).
Arguments Valid {A} a.
Arguments Invalid {A} es.

Definition field {A} (name : string) (r : result A) : validation A :=
  match r with
  | Ok a => Valid a
  | Err e => Invalid [(name, e)]
  end.

Definition ap {A B} (f : validation (A -> B)) (x : validation A)
  : validation B :=
  match f, x with
  | Valid g, Valid a => Valid (g a)
  | Valid _, Invalid es => Invalid es
  | Invalid es, Valid _ => Invalid es
  | Invalid es, Invalid es' => Invalid (es ++ es')
  end.

Definition is_valid {A} (v : validation A) : bool :=
  match v with Valid _ => true | Invalid _ => false end.

Declare Scope pydantic_scope.
Delimit Scope pydantic_scope with pydantic.
Notation "f <*> x" := (ap f x) (at level 61, left associativity)
  : pydantic_scope.
Notation "n ::= r" := (field n r) (at level 60, no associativity)
  : pydantic_scope.

Lemma ap_valid {A B} (f : validation (A -> B)) (x : validation A) (b : B) :
  ap f x = Valid b <->
  exists g a, f = Valid g /\ x = Valid a /\ b = g a.
Proof.
  destruct f as [g|es], x as [a|es']; simpl; split;
    try discriminate;
    try (intros (g' & a' & H1 & H2 & H3); discriminate).
  - intros H. injection H as <-. now exists g, a.
  - intros (g' & a' & H1 & H2 & ->).
    injection H1 as <-. injection H2 as <-. reflexivity.
Qed.

Lemma field_valid {A} (n : string) (r : result A) (a : A) :
  field n r = Valid a <-> r = Ok a.
Proof.
  destruct r; simpl; split; intros H; try discriminate; congruence.
Qed.

Lemma float_range_ok (lo hi v w : float) :
  float_range lo hi v = Ok w <-> PyFloat.between lo v hi = true /\ w = v.
Proof.
  unfold float_range, float_ge, float_le, PyFloat.between, PyFloat.ge, bind.
  destruct (PyFloat.le lo v); simpl.
  - destruct (PyFloat.le v hi); split.
    + intros H. injection H as <-. auto.
    + intros [_ ->]. reflexivity.
    + discriminate.
    + intros [H _]. discriminate.
  - split; [discriminate|]. intros [H _]. discriminate.
Qed.

Lemma float_ge_ok (lo v w : float) :
  float_ge lo v = Ok w <-> PyFloat.ge v lo = true /\ w = v.
Proof.
  unfold float_ge. destruct (PyFloat.ge v lo); split.
  - intros H. injection H as <-. auto.
  - intros [_ ->]. reflexivity.
  - discriminate.
  - intros [H _]. discriminate.
Qed.

Lemma int_ge_ok (lo v w : Z) :
  int_ge lo v = Ok w <-> (lo <= v)%Z /\ w = v.
Proof.
  unfold int_ge. destruct (Z.leb_spec lo v) as [L|L]; split.
  - intros H. injection H as <-. auto.
  - intros [_ ->]. reflexivity.
  - discriminate.
  - intros [H _]. lia.
Qed.

End Pydantic.

(* ================================================================== *)
(** ** The system clock *)

Module Datetime.

(** A naive [datetime], ordered as Python orders them. *)
Definition datetime := Z.

(** The system clock as the program sees it: [clk n] is the time returned
    by the [n]-th call of [datetime.utcnow()].  The number of calls made
    so far is the state threaded through the constructions that read the
    clock. *)
Definition clock := nat -> datetime.

Definition utcnow (clk : clock) (calls : nat) : datetime * nat :=
  (clk calls, S calls).

(** A clock that never goes back. *)
Definition monotone (clk : clock) : Prop :=
  forall n, (clk n <= clk (S n))%Z.

Lemma monotone_le (clk : clock) :
  monotone clk -> forall n m, (n <= m)%nat -> (clk n <= clk m)%Z.
Proof.
  intros Hm n m Hle. induction Hle as [|m _ IH]; [lia|].
  specialize (Hm m). lia.
Qed.

End Datetime.

(* ================================================================== *)
(** ** [app/models/enhanced_lead.py] *)

Module EnhancedLead.

Import Pydantic Datetime.
Local Open Scope string_scope.
Local Open Scope pydantic_scope.

Inductive CollectionStrategy := DIRECT | CONVERSATIONAL | PROGRESSIVE.

Inductive QualificationStage :=
| INITIAL_INTEREST
| NEED_ASSESSMENT
| BUDGET_QUALIFICATION
| AUTHORITY_VERIFICATION
| TIMELINE_DISCUSSION
| QUALIFIED
| DISQUALIFIED.

Inductive LeadPriority := LOW | MEDIUM | HIGH | URGENT.

Inductive LeadStatus :=
| NEW
| CONTACTED
| STATUS_QUALIFIED
| PROPOSAL_SENT
| NEGOTIATION
| CLOSED_WON
| CLOSED_LOST.

(** *** ContactInfo, QualificationData, LeadSignals: no constraint *)

Record ContactInfo := {
  email : option PyStr.str;
  phone : option PyStr.str;
  name : option PyStr.str;
  company : option PyStr.str;
  job_title : option PyStr.str;
  linkedin_url : option PyStr.str;
  website : option PyStr.str
}.

Definition ContactInfo_default : ContactInfo :=
  Build_ContactInfo None None None None None None None.

Record QualificationData := {
  budget : option PyStr.str;
  authority : option PyStr.str;
  need : option PyStr.str;
  timeline : option PyStr.str;
  company_size : option PyStr.str;
  industry : option PyStr.str;
  current_solution : option PyStr.str;
  pain_points : list PyStr.str
}.

Definition QualificationData_default : QualificationData :=
  Build_QualificationData None None None None None None None [].

Record LeadSignals := {
  buying_intent_keywords : list PyStr.str;
  urgency_indicators : list PyStr.str;
  budget_mentions : list PyStr.str;
  authority_indicators : list PyStr.str;
  competitor_mentions : list PyStr.str;
  pain_point_expressions : list PyStr.str;
  timeline_mentions : list PyStr.str
}.

Definition LeadSignals_default : LeadSignals :=
  Build_LeadSignals [] [] [] [] [] [] [].

(** *** ConversationMetrics *)

Module ConversationMetrics.

Record t := {
  engagement_score : float;
  intent_strength : float;
  urgency_level : float;
  sentiment_score : float;
  question_count : Z;
  response_time_avg : float;
  conversation_length : Z
}.

(** The keyword arguments of the constructor. *)
Record kwargs := {
  arg_engagement_score : option float;
  arg_intent_strength : option float;
  arg_urgency_level : option float;
  arg_sentiment_score : option float;
  arg_question_count : option Z;
  arg_response_time_avg : option float;
  arg_conversation_length : option Z
}.

Definition no_args : kwargs :=
  Build_kwargs None None None None None None None.

Definition validate_engagement_score :=
  defaulted 0%float (float_range 0%float 1%float).
Definition validate_intent_strength :=
  defaulted 0%float (float_range 0%float 1%float).
Definition validate_urgency_level :=
  defaulted 0%float (float_range 0%float 1%float).
Definition validate_sentiment_score :=
  defaulted 0%float (float_range (-1)%float 1%float).
Definition validate_question_count := defaulted 0%Z (int_ge 0).
Definition validate_response_time_avg :=
  defaulted 0%float (float_ge 0%float).
Definition validate_conversation_length := defaulted 0%Z (int_ge 0).

Definition init (kw : kwargs) : validation t :=
  Valid Build_t
  <*> "engagement_score" ::=
        validate_engagement_score (arg_engagement_score kw)
  <*> "intent_strength" ::=
        validate_intent_strength (arg_intent_strength kw)
  <*> "urgency_level" ::= validate_urgency_level (arg_urgency_level kw)
  <*> "sentiment_score" ::=
        validate_sentiment_score (arg_sentiment_score kw)
  <*> "question_count" ::=
        validate_question_count (arg_question_count kw)
  <*> "response_time_avg" ::=
        validate_response_time_avg (arg_response_time_avg kw)
  <*> "conversation_length" ::=
        validate_conversation_length (arg_conversation_length kw).

(** [ConversationMetrics()], the [default_factory] of
    [EnhancedLeadData.conversation_metrics]. *)
Definition default : t := Build_t 0 0 0 0 0 0 0.

End ConversationMetrics.

(** *** QualificationQuestion and LeadAnalysis *)

Record QualificationQuestion := {
  question : PyStr.str;
  category : PyStr.str;
  question_priority : Z;
  context : PyStr.str;
  follow_up_questions : list PyStr.str
}.

Record LeadAnalysis := {
  is_potential_lead : bool;
  confidence_score : float;
  analysis_qualification_stage : QualificationStage;
  lead_signals : LeadSignals;
  suggested_questions : list QualificationQuestion;
  next_actions : list PyStr.str;
  risk_factors : list PyStr.str
}.

(** *** EnhancedLeadData *)

Module EnhancedLeadData.

Record t := {
  id : option PyStr.str;
  conversation_id : PyStr.str;
  chatbot_id : PyStr.str;
  contact_info : ContactInfo;
  qualification_data : QualificationData;
  conversation_metrics : ConversationMetrics.t;
  collection_strategy : CollectionStrategy;
  lead_score : float;
  priority : LeadPriority;
  status : LeadStatus;
  qualification_stage : QualificationStage;
  lead_analysis : option LeadAnalysis;
  created_at : datetime;
  updated_at : datetime;
  last_interaction : option datetime;
  source : PyStr.str;
  tags : list PyStr.str;
  notes : list PyStr.str
}.

(** The keyword arguments of the constructor.  An argument that is a
    model ([contact_info], [conversation_metrics], ...) is an instance
    of that model. *)
Record kwargs := {
  arg_id : option PyStr.str;
  arg_conversation_id : option PyStr.str;
  arg_chatbot_id : option PyStr.str;
  arg_contact_info : option ContactInfo;
  arg_qualification_data : option QualificationData;
  arg_conversation_metrics : option ConversationMetrics.t;
  arg_collection_strategy : option CollectionStrategy;
  arg_lead_score : option float;
  arg_priority : option LeadPriority;
  arg_status : option LeadStatus;
  arg_qualification_stage : option QualificationStage;
  arg_lead_analysis : option LeadAnalysis;
  arg_created_at : option datetime;
  arg_updated_at : option datetime;
  arg_last_interaction : option datetime;
  arg_source : option PyStr.str;
  arg_tags : option (list PyStr.str);
  arg_notes : option (list PyStr.str)
}.

(** [@validator('lead_score')]:
    [return max(0.0, min(100.0, v))]. *)
Definition validate_lead_score (v : float) : float :=
  PyFloat.py_max 0%float (PyFloat.py_min 100%float v).

(** The validators of the field [lead_score], in the order Pydantic runs
    them: the constraints [ge=0.0, le=100.0] of the [Field], then the
    class validator.  They run on a supplied value only. *)
Definition lead_score_field (arg : option float) : result float :=
  defaulted 0%float
    (fun v => bind (float_range 0%float 100%float v)
                   (fun v => Ok (validate_lead_score v)))
    arg.

(** [@validator('updated_at', always=True)]:
    [return datetime.utcnow()]. *)
Definition set_updated_at (clk : clock) (v : datetime) (calls : nat)
  : datetime * nat :=
  utcnow clk calls.

(** [created_at]: [default_factory=datetime.utcnow], called when the
    argument is left out. *)
Definition created_at_field (clk : clock) (arg : option datetime)
           (calls : nat) : datetime * nat :=
  match arg with
  | Some v => (v, calls)
  | None => utcnow clk calls
  end.

(** [updated_at]: the same default, and then, whether the value was
    supplied or defaulted, the validator [set_updated_at]. *)
Definition updated_at_field (clk : clock) (arg : option datetime)
           (calls : nat) : datetime * nat :=
  let '(v, calls) :=
    match arg with
    | Some v => (v, calls)
    | None => utcnow clk calls
    end in
  set_updated_at clk v calls.

(** The constructor of [EnhancedLeadData]: the fields are validated in declaration
    order; [calls] is the number of clock readings made before the
    construction, and the second component the number after it. *)
Definition init (clk : clock) (kw : kwargs) (calls : nat)
  : validation t * nat :=
  let '(created, calls) := created_at_field clk (arg_created_at kw) calls in
  let '(updated, calls) := updated_at_field clk (arg_updated_at kw) calls in
  (Valid Build_t
   <*> "id" ::= any (arg_id kw)
   <*> "conversation_id" ::= required any (arg_conversation_id kw)
   <*> "chatbot_id" ::= required any (arg_chatbot_id kw)
   <*> "contact_info" ::=
         defaulted ContactInfo_default any (arg_contact_info kw)
   <*> "qualification_data" ::=
         defaulted QualificationData_default any
                   (arg_qualification_data kw)
   <*> "conversation_metrics" ::=
         defaulted ConversationMetrics.default any
                   (arg_conversation_metrics kw)
   <*> "collection_strategy" ::=
         defaulted CONVERSATIONAL any (arg_collection_strategy kw)
   <*> "lead_score" ::= lead_score_field (arg_lead_score kw)
   <*> "priority" ::= defaulted LOW any (arg_priority kw)
   <*> "status" ::= defaulted NEW any (arg_status kw)
   <*> "qualification_stage" ::=
         defaulted INITIAL_INTEREST any (arg_qualification_stage kw)
   <*> "lead_analysis" ::= any (arg_lead_analysis kw)
   <*> "created_at" ::= Ok created
   <*> "updated_at" ::= Ok updated
   <*> "last_interaction" ::= any (arg_last_interaction kw)
   <*> "source" ::=
         defaulted (PyStr.of_string "chatbot") any (arg_source kw)
   <*> "tags" ::= defaulted [] any (arg_tags kw)
   <*> "notes" ::= defaulted [] any (arg_notes kw),
   calls).

(** The model declares no [Config]: assigning to an attribute of an
    instance stores the value and runs no validator. *)
Definition assign_lead_score (m : t) (v : float) : t :=
  Build_t (id m) (conversation_id m) (chatbot_id m) (contact_info m)
          (qualification_data m) (conversation_metrics m)
          (collection_strategy m) v (priority m) (status m)
          (qualification_stage m) (lead_analysis m) (created_at m)
          (updated_at m) (last_interaction m) (source m) (tags m)
          (notes m).

(** The arguments a caller must give, and nothing else. *)
Definition minimal_args (conversation chatbot : PyStr.str) : kwargs :=
  Build_kwargs None (Some conversation) (Some chatbot) None None None
               None None None None None None None None None None None
               None.

Definition with_lead_score (kw : kwargs) (v : float) : kwargs :=
  Build_kwargs (arg_id kw) (arg_conversation_id kw) (arg_chatbot_id kw)
               (arg_contact_info kw) (arg_qualification_data kw)
               (arg_conversation_metrics kw) (arg_collection_strategy kw)
               (Some v) (arg_priority kw) (arg_status kw)
               (arg_qualification_stage kw) (arg_lead_analysis kw)
               (arg_created_at kw) (arg_updated_at kw)
               (arg_last_interaction kw) (arg_source kw) (arg_tags kw)
               (arg_notes kw).

Definition with_timestamps (kw : kwargs) (created updated : option datetime)
  : kwargs :=
  Build_kwargs (arg_id kw) (arg_conversation_id kw) (arg_chatbot_id kw)
               (arg_contact_info kw) (arg_qualification_data kw)
               (arg_conversation_metrics kw) (arg_collection_strategy kw)
               (arg_lead_score kw) (arg_priority kw) (arg_status kw)
               (arg_qualification_stage kw) (arg_lead_analysis kw)
               created updated
               (arg_last_interaction kw) (arg_source kw) (arg_tags kw)
               (arg_notes kw).

End EnhancedLeadData.

(** *** LeadScoringFactors: five weights, none of them constrained *)

Module LeadScoringFactors.

Record t := {
  engagement_factor : float;
  intent_factor : float;
  qualification_factor : float;
  urgency_factor : float;
  fit_factor : float
}.

Record kwargs := {
  arg_engagement_factor : option float;
  arg_intent_factor : option float;
  arg_qualification_factor : option float;
  arg_urgency_factor : option float;
  arg_fit_factor : option float
}.

Definition no_args : kwargs := Build_kwargs None None None None None.

Definition init (kw : kwargs) : validation t :=
  Valid Build_t
  <*> "engagement_factor" ::=
        defaulted 0%float any (arg_engagement_factor kw)
  <*> "intent_factor" ::= defaulted 0%float any (arg_intent_factor kw)
  <*> "qualification_factor" ::=
        defaulted 0%float any (arg_qualification_factor kw)
  <*> "urgency_factor" ::= defaulted 0%float any (arg_urgency_factor kw)
  <*> "fit_factor" ::= defaulted 0%float any (arg_fit_factor kw).

End LeadScoringFactors.

End EnhancedLead.

(* ================================================================== *)
(** ** [app/models/lead.py] *)

Module Lead.

Import Pydantic.
Local Open Scope string_scope.
Local Open Scope pydantic_scope.

Inductive LeadPriority := LOW | MEDIUM | HIGH | URGENT.

Inductive LeadType :=
| DEMO_REQUEST
| ENTERPRISE_INQUIRY
| BULK_ORDER
| PRICING_INQUIRY
| SUPPORT_ESCALATION
| FEATURE_REQUEST
| GENERAL_INQUIRY.

(** A value of type [Any], as found in the [Dict[str, Any]] fields. *)
Unset Elimination Schemes.
Inductive any_value :=
| AnyNone
| AnyBool (b : bool)
| AnyInt (z : Z)
| AnyFloat (f : float)
| AnyStr (s : PyStr.str)
| AnyList (l : list any_value)
| AnyDict (d : list (PyStr.str * any_value)).
Set Elimination Schemes.

(** A [Dict[str, V]], by its items. *)
Definition dict (V : Type) := list (PyStr.str * V).

(** *** ConversationContextRequest *)

Module ConversationContextRequest.

Record t := {
  message_count : Z;
  conversation_length : Z;
  engagement_score : float;
  sentiment_history : list float;
  previous_intents : list PyStr.str
}.

Record kwargs := {
  arg_message_count : option Z;
  arg_conversation_length : option Z;
  arg_engagement_score : option float;
  arg_sentiment_history : option (list float);
  arg_previous_intents : option (list PyStr.str)
}.

Definition sentiment_error : error :=
  ValueError "Sentiment scores must be between -1.0 and 1.0".

(** The loop of [validate_sentiment_history]:
    [for score in v: if not -1.0 <= score <= 1.0: raise ValueError]. *)
Fixpoint check_scores (v : list float) : result unit :=
  match v with
  | [] => Ok tt
  | score :: rest =>
      if negb (PyFloat.between (-1)%float score 1%float)
      then Err sentiment_error
      else check_scores rest
  end.

(** [@validator('sentiment_history')]: the loop, then [return v]. *)
Definition validate_sentiment_history (v : list float)
  : result (list float) :=
  bind (check_scores v) (fun _ => Ok v).

Definition init (kw : kwargs) : validation t :=
  Valid Build_t
  <*> "message_count" ::= required (int_ge 0) (arg_message_count kw)
  <*> "conversation_length" ::=
        required (int_ge 0) (arg_conversation_length kw)
  <*> "engagement_score" ::=
        defaulted 0.5%float (float_range 0%float 1%float)
                  (arg_engagement_score kw)
  <*> "sentiment_history" ::=
        defaulted [] validate_sentiment_history
                  (arg_sentiment_history kw)
  <*> "previous_intents" ::= defaulted [] any (arg_previous_intents kw).

End ConversationContextRequest.

(** *** LeadAnalysisRequest *)

Module LeadAnalysisRequest.

Record t := {
  message : PyStr.str;
  conversation_context : option ConversationContextRequest.t
}.

Record kwargs := {
  arg_message : option PyStr.str;
  arg_conversation_context : option ConversationContextRequest.t
}.

(** [@validator('message')]:
    [if not v or not v.strip(): raise ValueError]; [return v.strip()]. *)
Definition validate_message (v : PyStr.str) : result PyStr.str :=
  if negb (PyStr.truthy v) || negb (PyStr.truthy (PyStr.strip v))
  then Err (ValueError "Message cannot be empty")
  else Ok (PyStr.strip v).

(** The validators of the field [message]: the length constraints
    [min_length=1, max_length=2000], then the class validator. *)
Definition message_field (v : PyStr.str) : result PyStr.str :=
  bind (str_length (Some 1%Z) (Some 2000%Z) v) validate_message.

Definition init (kw : kwargs) : validation t :=
  Valid Build_t
  <*> "message" ::= required message_field (arg_message kw)
  <*> "conversation_context" ::= any (arg_conversation_context kw).

End LeadAnalysisRequest.

(** *** LeadScoreResponse *)

Module LeadScoreResponse.

Record t := {
  total_score : float;
  priority : LeadPriority;
  lead_type : LeadType;
  confidence : float;
  should_qualify : bool;
  factors : dict float;
  extracted_data : dict any_value;
  crm_mapping : dict any_value;
  analyzed_at : PyStr.str
}.

Record kwargs := {
  arg_total_score : option float;
  arg_priority : option LeadPriority;
  arg_lead_type : option LeadType;
  arg_confidence : option float;
  arg_should_qualify : option bool;
  arg_factors : option (dict float);
  arg_extracted_data : option (dict any_value);
  arg_crm_mapping : option (dict any_value);
  arg_analyzed_at : option PyStr.str
}.

Definition init (kw : kwargs) : validation t :=
  Valid Build_t
  <*> "total_score" ::=
        required (float_range 0%float 1%float) (arg_total_score kw)
  <*> "priority" ::= required any (arg_priority kw)
  <*> "lead_type" ::= required any (arg_lead_type kw)
  <*> "confidence" ::=
        required (float_range 0%float 1%float) (arg_confidence kw)
  <*> "should_qualify" ::= required any (arg_should_qualify kw)
  <*> "factors" ::= required any (arg_factors kw)
  <*> "extracted_data" ::= required any (arg_extracted_data kw)
  <*> "crm_mapping" ::= required any (arg_crm_mapping kw)
  <*> "analyzed_at" ::= required any (arg_analyzed_at kw).

End LeadScoreResponse.

(** *** CRMLeadData *)

Module CRMLeadData.

Record t := {
  lead_source : PyStr.str;
  lead_score : float;
  lead_priority : LeadPriority;
  lead_type : LeadType;
  confidence : float;
  email : option PyStr.str;
  phone : option PyStr.str;
  name : option PyStr.str;
  company : option PyStr.str;
  original_message : PyStr.str;
  follow_up_action : option PyStr.str;
  qualification_date : PyStr.str;
  demo_requested : bool;
  enterprise_inquiry : bool;
  bulk_order_inquiry : bool;
  scoring_factors : dict float;
  conversation_id : PyStr.str;
  chatbot_id : option PyStr.str
}.

Record kwargs := {
  arg_lead_source : option PyStr.str;
  arg_lead_score : option float;
  arg_lead_priority : option LeadPriority;
  arg_lead_type : option LeadType;
  arg_confidence : option float;
  arg_email : option PyStr.str;
  arg_phone : option PyStr.str;
  arg_name : option PyStr.str;
  arg_company : option PyStr.str;
  arg_original_message : option PyStr.str;
  arg_follow_up_action : option PyStr.str;
  arg_qualification_date : option PyStr.str;
  arg_demo_requested : option bool;
  arg_enterprise_inquiry : option bool;
  arg_bulk_order_inquiry : option bool;
  arg_scoring_factors : option (dict float);
  arg_conversation_id : option PyStr.str;
  arg_chatbot_id : option PyStr.str
}.

Section Unicode.

(** [str.lower] and [str.isdigit] depend on the Unicode character
    database of the interpreter; the model takes them as given. *)
Variable str_lower : PyStr.str -> PyStr.str.
Variable str_isdigit : PyStr.char -> bool.

(** [@validator('email')]; the code point of ['@'] is 64. *)
Definition validate_email (v : option PyStr.str)
  : result (option PyStr.str) :=
  match v with
  | Some s =>
      if PyStr.truthy (PyStr.strip s) then
        if negb (PyStr.contains 64%N s)
        then Err (ValueError "Invalid email format")
        else Ok (Some (str_lower (PyStr.strip s)))
      else Ok v
  | None => Ok v
  end.

(** [@validator('phone')]. *)
Definition validate_phone (v : option PyStr.str)
  : result (option PyStr.str) :=
  match v with
  | Some s =>
      if PyStr.truthy (PyStr.strip s) then
        let digits := filter str_isdigit s in
        if (PyStr.len digits <? 10)%Z
        then Err (ValueError "Phone number must have at least 10 digits")
        else Ok (Some (PyStr.strip s))
      else Ok v
  | None => Ok v
  end.

Definition init (kw : kwargs) : validation t :=
  Valid Build_t
  <*> "lead_source" ::=
        defaulted (PyStr.of_string "chatbot") any (arg_lead_source kw)
  <*> "lead_score" ::=
        required (float_range 0%float 1%float) (arg_lead_score kw)
  <*> "lead_priority" ::= required any (arg_lead_priority kw)
  <*> "lead_type" ::= required any (arg_lead_type kw)
  <*> "confidence" ::=
        required (float_range 0%float 1%float) (arg_confidence kw)
  <*> "email" ::= validate_email (arg_email kw)
  <*> "phone" ::= validate_phone (arg_phone kw)
  <*> "name" ::= any (arg_name kw)
  <*> "company" ::= any (arg_company kw)
  <*> "original_message" ::=
        required (str_length None (Some 500%Z))
                 (arg_original_message kw)
  <*> "follow_up_action" ::= any (arg_follow_up_action kw)
  <*> "qualification_date" ::= required any (arg_qualification_date kw)
  <*> "demo_requested" ::= defaulted false any (arg_demo_requested kw)
  <*> "enterprise_inquiry" ::=
        defaulted false any (arg_enterprise_inquiry kw)
  <*> "bulk_order_inquiry" ::=
        defaulted false any (arg_bulk_order_inquiry kw)
  <*> "scoring_factors" ::= required any (arg_scoring_factors kw)
  <*> "conversation_id" ::= required any (arg_conversation_id kw)
  <*> "chatbot_id" ::= any (arg_chatbot_id kw).

End Unicode.

End CRMLeadData.

End Lead.

(* ================================================================== *)
(** ** Further models of the two files *)

(** [Field(..., ge=lo, le=hi)] on an int: the lower bound is checked
    first. *)
Definition int_range (lo hi v : Z) : Pydantic.result Z :=
  Pydantic.bind (Pydantic.int_ge lo v)
    (fun v => if (v <=? hi)%Z then Pydantic.Ok v
              else Pydantic.Err
                     (Pydantic.NumberNotLeError (Pydantic.NInt hi))).

Module QualificationQuestionModel.

Import Pydantic EnhancedLead.
Local Open Scope string_scope.
Local Open Scope pydantic_scope.

Record kwargs := {
  arg_question : option PyStr.str;
  arg_category : option PyStr.str;
  arg_priority : option Z;
  arg_context : option PyStr.str;
  arg_follow_up_questions : option (list PyStr.str)
}.

(** The constructor of [QualificationQuestion]: [priority] is
    [Field(1, ge=1, le=5)], the three texts are required. *)
Definition init (kw : kwargs) : validation QualificationQuestion :=
  Valid Build_QualificationQuestion
  <*> "question" ::= required any (arg_question kw)
  <*> "category" ::= required any (arg_category kw)
  <*> "priority" ::= defaulted 1%Z (int_range 1 5) (arg_priority kw)
  <*> "context" ::= required any (arg_context kw)
  <*> "follow_up_questions" ::=
        defaulted [] any (arg_follow_up_questions kw).

End QualificationQuestionModel.

Module LeadAnalysisModel.

Import Pydantic EnhancedLead.
Local Open Scope string_scope.
Local Open Scope pydantic_scope.

Record kwargs := {
  arg_is_potential_lead : option bool;
  arg_confidence_score : option float;
  arg_qualification_stage : option QualificationStage;
  arg_lead_signals : option LeadSignals;
  arg_suggested_questions : option (list QualificationQuestion);
  arg_next_actions : option (list PyStr.str);
  arg_risk_factors : option (list PyStr.str)
}.

Definition no_args : kwargs :=
  Build_kwargs None None None None None None None.

(** The constructor of [LeadAnalysis]: [confidence_score] is
    [Field(0.0, ge=0.0, le=1.0)]; every field has a default. *)
Definition init (kw : kwargs) : validation LeadAnalysis :=
  Valid Build_LeadAnalysis
  <*> "is_potential_lead" ::= defaulted false any (arg_is_potential_lead kw)
  <*> "confidence_score" ::=
        defaulted 0%float (float_range 0%float 1%float)
                  (arg_confidence_score kw)
  <*> "qualification_stage" ::=
        defaulted INITIAL_INTEREST any (arg_qualification_stage kw)
  <*> "lead_signals" ::=
        defaulted LeadSignals_default any (arg_lead_signals kw)
  <*> "suggested_questions" ::=
        defaulted [] any (arg_suggested_questions kw)
  <*> "next_actions" ::= defaulted [] any (arg_next_actions kw)
  <*> "risk_factors" ::= defaulted [] any (arg_risk_factors kw).

End LeadAnalysisModel.

Module LeadQualificationStats.

Import Pydantic Lead.
Local Open Scope string_scope.
Local Open Scope pydantic_scope.

Record t := {
  total_leads_analyzed : Z;
  qualified_leads : Z;
  qualification_rate : float;
  average_score : float;
  priority_breakdown : dict Z;
  type_breakdown : dict Z;
  period_start : PyStr.str;
  period_end : PyStr.str
}.

Record kwargs := {
  arg_total_leads_analyzed : option Z;
  arg_qualified_leads : option Z;
  arg_qualification_rate : option float;
  arg_average_score : option float;
  arg_priority_breakdown : option (dict Z);
  arg_type_breakdown : option (dict Z);
  arg_period_start : option PyStr.str;
  arg_period_end : option PyStr.str
}.

Definition init (kw : kwargs) : validation t :=
  Valid Build_t
  <*> "total_leads_analyzed" ::=
        required (int_ge 0) (arg_total_leads_analyzed kw)
  <*> "qualified_leads" ::= required (int_ge 0) (arg_qualified_leads kw)
  <*> "qualification_rate" ::=
        required (float_range 0%float 100%float)
                 (arg_qualification_rate kw)
  <*> "average_score" ::=
        required (float_range 0%float 1%float) (arg_average_score kw)
  <*> "priority_breakdown" ::= required any (arg_priority_breakdown kw)
  <*> "type_breakdown" ::= required any (arg_type_breakdown kw)
  <*> "period_start" ::= required any (arg_period_start kw)
  <*> "period_end" ::= required any (arg_period_end kw).

(** The argument list that supplies every field of the statistics. *)
Definition args_of (m : t) : kwargs :=
  Build_kwargs (Some (total_leads_analyzed m)) (Some (qualified_leads m))
               (Some (qualification_rate m)) (Some (average_score m))
               (Some (priority_breakdown m)) (Some (type_breakdown m))
               (Some (period_start m)) (Some (period_end m)).

End LeadQualificationStats.

Module LeadQualificationTrigger.

Import Pydantic Datetime Lead.
Local Open Scope string_scope.
Local Open Scope pydantic_scope.

Record t := {
  trigger_id : PyStr.str;
  lead_score : LeadScoreResponse.t;
  conversation_id : PyStr.str;
  user_email : option PyStr.str;
  message_id : PyStr.str;
  trigger_type : PyStr.str;
  metadata : dict any_value;
  created_at : PyStr.str
}.

(** The keyword arguments of the constructor; [lead_score] is an instance
    of [LeadScoreResponse]. *)
Record kwargs := {
  arg_trigger_id : option PyStr.str;
  arg_lead_score : option LeadScoreResponse.t;
  arg_conversation_id : option PyStr.str;
  arg_user_email : option PyStr.str;
  arg_message_id : option PyStr.str;
  arg_trigger_type : option PyStr.str;
  arg_metadata : option (dict any_value);
  arg_created_at : option PyStr.str
}.

Section Isoformat.

(** [datetime.isoformat], the text of a time, is taken as given. *)
Variable isoformat : datetime -> PyStr.str.

(** [created_at]:
    [default_factory=lambda: datetime.utcnow().isoformat()], called when the
    argument is left out. *)
Definition created_at_field (clk : clock) (arg : option PyStr.str)
           (calls : nat) : PyStr.str * nat :=
  match arg with
  | Some v => (v, calls)
  | None => let '(now, calls) := utcnow clk calls in (isoformat now, calls)
  end.

Definition init (clk : clock) (kw : kwargs) (calls : nat)
  : validation t * nat :=
  let '(created, calls) := created_at_field clk (arg_created_at kw) calls in
  (Valid Build_t
   <*> "trigger_id" ::= required any (arg_trigger_id kw)
   <*> "lead_score" ::= required any (arg_lead_score kw)
   <*> "conversation_id" ::= required any (arg_conversation_id kw)
   <*> "user_email" ::= any (arg_user_email kw)
   <*> "message_id" ::= required any (arg_message_id kw)
   <*> "trigger_type" ::=
         defaulted (PyStr.of_string "lead_qualification") any
                   (arg_trigger_type kw)
   <*> "metadata" ::= defaulted [] any (arg_metadata kw)
   <*> "created_at" ::= Ok created,
   calls).

End Isoformat.

End LeadQualificationTrigger.

(* ================================================================== *)
(** ** The scoring aggregator *)

Module Scoring.

Import EnhancedLead.
Local Open Scope float_scope.

(** Modelled from the spec: the scoring aggregator [compute_score] and
    its errors are not part of the source files; section 4.1 of the
    specification gives its contract.  The weights are a
    [LeadScoringFactors] record; the inputs are the models of
    [enhanced_lead.py]. *)
Inductive scoring_error :=
| InvalidWeightConfiguration
| MissingMetrics.

(** Modelled from the spec: the map of per-factor values that
    [compute_score] returns next to the score, one entry per factor of
    section 4.1. *)
Record factor_values := {
  engagement : float;
  intent : float;
  qualification : float;
  urgency : float;
  fit : float
}.

(** Modelled from the spec: a BANT field is "populated" ("non-empty") when
    it holds a non-empty string. *)
Definition populated (field : option PyStr.str) : bool :=
  match field with
  | Some s => PyStr.truthy s
  | None => false
  end.

(** Modelled from the spec: "fraction of BANT fields populated (budget,
    authority, need, timeline) - 0.25 per field present, each counted
    independently". *)
Definition qualification_of (q : QualificationData) : float :=
  let credit (f : option PyStr.str) := if populated f then 0.25 else 0 in
  credit (budget q) + credit (authority q) + credit (need q)
  + credit (timeline q).

(** Modelled from the spec: the weights argument of [compute_score], "named
    float weights (engagement, intent, qualification completeness, urgency,
    ICP fit)": a [LeadScoringFactors] record. *)
Definition weights := LeadScoringFactors.t.

(** Modelled from the spec: the five weights of a configuration. *)
Definition weight_list (w : weights) : list float :=
  [LeadScoringFactors.engagement_factor w;
   LeadScoringFactors.intent_factor w;
   LeadScoringFactors.qualification_factor w;
   LeadScoringFactors.urgency_factor w;
   LeadScoringFactors.fit_factor w].

(** Modelled from the spec: "weights are negative": some weight compares
    below zero. *)
Definition some_negative (w : weights) : bool :=
  existsb (fun x => PyFloat.lt x 0) (weight_list w).

(** Modelled from the spec: "all-zero": every weight compares equal to
    zero. *)
Definition all_zero (w : weights) : bool :=
  forallb (fun x => PyFloat.eq x 0) (weight_list w).

(** Modelled from the spec: the pass "fails with InvalidWeightConfiguration
    when weights are negative or all-zero". *)
Definition invalid_weights (w : weights) : bool :=
  some_negative w || all_zero w.

(** Modelled from the spec: the factors are "combined as a weighted
    sum". *)
Definition weighted_sum (w : weights) (f : factor_values) : float :=
  LeadScoringFactors.engagement_factor w * engagement f
  + LeadScoringFactors.intent_factor w * intent f
  + LeadScoringFactors.qualification_factor w * qualification f
  + LeadScoringFactors.urgency_factor w * urgency f
  + LeadScoringFactors.fit_factor w * fit f.

(** Modelled from the spec: "the sum of active weights"; a zero weight
    adds nothing to it. *)
Definition weight_total (w : weights) : float :=
  LeadScoringFactors.engagement_factor w
  + LeadScoringFactors.intent_factor w
  + LeadScoringFactors.qualification_factor w
  + LeadScoringFactors.urgency_factor w
  + LeadScoringFactors.fit_factor w.

(** Modelled from the spec: the weighted sum "normalized by dividing by
    the sum of active weights", then "scaled to [0,100]". *)
Definition raw_score (w : weights) (f : factor_values) : float :=
  100 * (weighted_sum w f / weight_total w).

Section Factors.

(** Modelled from the spec: the engagement, intent, urgency and fit
    factors.  The specification leaves their saturation curves and the
    matching against the ideal-customer profile to the implementer: they
    are taken as given. *)
Variable engagement_of : ConversationMetrics.t -> float.
Variable intent_of : ConversationMetrics.t -> LeadSignals -> float.
Variable urgency_of : ConversationMetrics.t -> LeadSignals -> float.
Variable fit_of : QualificationData -> float.

(** Modelled from the spec: "each factor is computed independently". *)
Definition factors_of (m : ConversationMetrics.t) (s : LeadSignals)
           (q : QualificationData) : factor_values :=
  {| engagement := engagement_of m;
     intent := intent_of m s;
     qualification := qualification_of q;
     urgency := urgency_of m s;
     fit := fit_of q |}.

(** Modelled from the spec: [compute_score(metrics, signals,
    qualification_data, weights) -> (score, factors)]; the final score
    is clamped with [max(0, min(100, value))]. *)
Definition compute_score (m : ConversationMetrics.t) (s : LeadSignals)
           (q : QualificationData) (w : weights)
  : scoring_error + (float * factor_values) :=
  if invalid_weights w then inl InvalidWeightConfiguration
  else
    let f := factors_of m s q in
    inr (PyFloat.py_max 0 (PyFloat.py_min 100 (raw_score w f)), f).

End Factors.

(** Modelled from the spec: "absent ICP config -> factor defaults to
    neutral (0.5)". *)
Definition fit_unconfigured (_ : QualificationData) : float := 0.5.

End Scoring.

(* ================================================================== *)
(** ** The qualification-stage machine *)

Module StageMachine.

Import EnhancedLead.

(** Modelled from the spec: the stage machine is not part of the source
    files, which declare the stages ([QualificationStage]) and the field
    that stores the current one; section 4.2 of the specification gives
    its states and rules.  [stage_index] is the position of a stage in the
    order INITIAL_INTEREST, ..., QUALIFIED; DISQUALIFIED is outside of
    it. *)
Definition stage_index (s : QualificationStage) : option nat :=
  match s with
  | INITIAL_INTEREST => Some 0
  | NEED_ASSESSMENT => Some 1
  | BUDGET_QUALIFICATION => Some 2
  | AUTHORITY_VERIFICATION => Some 3
  | TIMELINE_DISCUSSION => Some 4
  | QUALIFIED => Some 5
  | DISQUALIFIED => None
  end%nat.

(** Modelled from the spec: "QUALIFIED and DISQUALIFIED are terminal". *)
Definition terminal (s : QualificationStage) : bool :=
  match s with
  | QUALIFIED | DISQUALIFIED => true
  | _ => false
  end.

(** Modelled from the spec: the chain of states
    INITIAL_INTEREST -> NEED_ASSESSMENT -> BUDGET_QUALIFICATION ->
    AUTHORITY_VERIFICATION -> TIMELINE_DISCUSSION -> QUALIFIED. *)
Definition next_stage (s : QualificationStage) : option QualificationStage :=
  match s with
  | INITIAL_INTEREST => Some NEED_ASSESSMENT
  | NEED_ASSESSMENT => Some BUDGET_QUALIFICATION
  | BUDGET_QUALIFICATION => Some AUTHORITY_VERIFICATION
  | AUTHORITY_VERIFICATION => Some TIMELINE_DISCUSSION
  | TIMELINE_DISCUSSION => Some QUALIFIED
  | QUALIFIED | DISQUALIFIED => None
  end.

(** Modelled from the spec: the externally supplied configuration: the
    BANT field that gates each stage, the score threshold of each stage,
    the number N of observations of the disqualification rule and its
    low-score floor. *)
Record config := {
  gating_field : QualificationStage -> QualificationData -> option PyStr.str;
  threshold : QualificationStage -> float;
  decline_window : nat;
  low_score_floor : float
}.

(** Modelled from the spec: what one scoring pass hands to the machine:
    the qualification data, the scores of the passes so far (the latest
    first, the current one at the head) and whether an explicit
    disqualifying signal is present. *)
Record observation := {
  qualification : QualificationData;
  scores : list float;
  disqualifying_signal : bool
}.

(** Modelled from the spec: "advance one stage when the corresponding
    BANT field in QualificationData becomes non-empty AND the aggregate
    score exceeds a stage-specific threshold". *)
Definition may_advance (c : config) (o : observation)
           (s : QualificationStage) : bool :=
  Scoring.populated (gating_field c s (qualification o))
  && match scores o with
     | score :: _ => PyFloat.gt score (threshold c s)
     | [] => false
     end.

(** Modelled from the spec: "strictly decreasing over N consecutive
    observations"; the list holds the latest observation first. *)
Fixpoint declining (l : list float) : bool :=
  match l with
  | later :: (earlier :: _) as rest =>
      PyFloat.lt later earlier && declining rest
  | _ => true
  end.

(** Modelled from the spec: the disqualification rule: N consecutive
    declining scores ending below the floor, or an explicit signal. *)
Definition must_disqualify (c : config) (o : observation) : bool :=
  disqualifying_signal o
  || match scores o with
     | score :: _ =>
         (0 <? decline_window c)%nat
         && (decline_window c <=? List.length (scores o))%nat
         && declining (firstn (decline_window c) (scores o))
         && PyFloat.lt score (low_score_floor c)
     | [] => false
     end.

(** Modelled from the spec: the transitions of the machine. *)
Inductive step (c : config) (o : observation)
  : QualificationStage -> QualificationStage -> Prop :=
| step_advance (s s' : QualificationStage) :
    next_stage s = Some s' -> may_advance c o s = true -> step c o s s'
| step_disqualify (s : QualificationStage) :
    terminal s = false -> must_disqualify c o = true ->
    step c o s DISQUALIFIED.

(** Modelled from the spec: the stage after one scoring pass;
    disqualification is looked at before advancement. *)
Definition transition (c : config) (o : observation)
           (s : QualificationStage) : QualificationStage :=
  if terminal s then s
  else if must_disqualify c o then DISQUALIFIED
  else if may_advance c o s then
    match next_stage s with Some s' => s' | None => s end
  else s.

(** Modelled from the spec: the stages a lead goes through over a
    sequence of scoring passes. *)
Fixpoint run (c : config) (os : list observation) (s : QualificationStage)
  : list QualificationStage :=
  match os with
  | [] => []
  | o :: rest => let s' := transition c o s in s' :: run c rest s'
  end.

(** Modelled from the spec: a sequence of transitions of a lead: any
    chain of steps, each taken on some observation. *)
Inductive transitions (c : config)
  : QualificationStage -> QualificationStage -> Prop :=
| transitions_nil (s : QualificationStage) : transitions c s s
| transitions_step (s s' s'' : QualificationStage) (o : observation) :
    step c o s s' -> transitions c s' s'' -> transitions c s s''.

(** Modelled from the spec: "the stage never moves to an earlier stage":
    [s'] is not earlier than [s] in the order of the six stages. *)
Definition not_earlier (s s' : QualificationStage) : Prop :=
  exists i j, stage_index s = Some i /\ stage_index s' = Some j /\ (i <= j)%nat.

End StageMachine.

(* ================================================================== *)
(** * Properties *)

Import Pydantic.
Local Open Scope string_scope.

(** ** Reasoning about model construction *)

(** [has_error n e v]: the construction [v] failed, and reports the error
    [e] for the field [n]. *)
Definition has_error {A} (n : string) (e : error) (v : validation A) : Prop :=
  match v with
  | Valid _ => False
  | Invalid es => In (n, e) es
  end.

Lemma has_error_ap_l {A B} n e (f : validation (A -> B)) (x : validation A) :
  has_error n e f -> has_error n e (ap f x).
Proof.
  destruct f as [g|es], x as [a|es']; simpl; try tauto.
  intros H. apply in_or_app. now left.
Qed.

Lemma has_error_ap_r {A B} n e (f : validation (A -> B)) (x : validation A) :
  has_error n e x -> has_error n e (ap f x).
Proof.
  destruct f as [g|es], x as [a|es']; simpl; try tauto.
  intros H. apply in_or_app. now right.
Qed.

Lemma has_error_field {A} n e : has_error n e (field (A:=A) n (Err e)).
Proof. simpl. now left. Qed.

Lemma defaulted_any {A} (d : A) (arg : option A) :
  defaulted d any arg = Ok (match arg with Some v => v | None => d end).
Proof. now destruct arg. Qed.

(** Inversion of a successful construction into the successes of its
    fields. *)
Ltac valid_inv H :=
  repeat
    (let g := fresh "g" in
     let a := fresh "a" in
     let Hx := fresh "Hfield" in
     let Hb := fresh "Hb" in
     apply ap_valid in H; destruct H as (g & a & H & Hx & Hb);
     apply field_valid in Hx;
     match type of Hb with ?b = _ => subst b end);
  let E := fresh "E" in
  injection H as E;
  match type of E with _ = ?b => subst b end.

Lemma required_ok {A B} (val : A -> result B) (arg : option A) (w : B) :
  required val arg = Ok w <-> exists v, arg = Some v /\ val v = Ok w.
Proof.
  destruct arg as [v|]; simpl; split.
  - intros H. now exists v.
  - intros (v' & E & H). now injection E as <-.
  - discriminate.
  - intros (v' & E & _). discriminate.
Qed.

Lemma any_ok {A} (v w : A) : any v = Ok w <-> w = v.
Proof. unfold any. split; congruence. Qed.

(** The value a field with a default ends up with. *)
Definition supplied_or {A} (d : A) (arg : option A) : A :=
  match arg with Some v => v | None => d end.

(** A condition on an argument, when the caller supplies it. *)
Definition when_supplied {A} (P : A -> Prop) (arg : option A) : Prop :=
  match arg with Some v => P v | None => True end.

Lemma defaulted_float_range lo hi d arg w :
  defaulted d (float_range lo hi) arg = Ok w <->
  when_supplied (fun v => PyFloat.between lo v hi = true) arg
  /\ w = supplied_or d arg.
Proof.
  destruct arg as [v|]; simpl.
  - apply float_range_ok.
  - split; [intros H; injection H as <-; auto | intros [_ ->]; reflexivity].
Qed.

Lemma defaulted_float_ge lo d arg w :
  defaulted d (float_ge lo) arg = Ok w <->
  when_supplied (fun v => PyFloat.ge v lo = true) arg
  /\ w = supplied_or d arg.
Proof.
  destruct arg as [v|]; simpl.
  - apply float_ge_ok.
  - split; [intros H; injection H as <-; auto | intros [_ ->]; reflexivity].
Qed.

Lemma defaulted_int_ge lo d arg w :
  defaulted d (int_ge lo) arg = Ok w <->
  when_supplied (fun v => (lo <= v)%Z) arg /\ w = supplied_or d arg.
Proof.
  destruct arg as [v|]; simpl.
  - apply int_ge_ok.
  - split; [intros H; injection H as <-; auto | intros [_ ->]; reflexivity].
Qed.

(** ** ConversationMetrics *)

Module CM := EnhancedLead.ConversationMetrics.

(** The seven conditions of [ConversationMetrics], on the arguments the
    caller supplies. *)
Definition metrics_in_range (kw : CM.kwargs) : Prop :=
  when_supplied (fun v => PyFloat.between 0 v 1 = true)
                (CM.arg_engagement_score kw)
  /\ when_supplied (fun v => PyFloat.between 0 v 1 = true)
                   (CM.arg_intent_strength kw)
  /\ when_supplied (fun v => PyFloat.between 0 v 1 = true)
                   (CM.arg_urgency_level kw)
  /\ when_supplied (fun v => PyFloat.between (-1) v 1 = true)
                   (CM.arg_sentiment_score kw)
  /\ when_supplied (fun v => (0 <= v)%Z) (CM.arg_question_count kw)
  /\ when_supplied (fun v => PyFloat.ge v 0 = true)
                   (CM.arg_response_time_avg kw)
  /\ when_supplied (fun v => (0 <= v)%Z) (CM.arg_conversation_length kw).

(** The record holding every argument exactly as supplied, and the default
    of the field for an argument left out. *)
Definition metrics_as_supplied (kw : CM.kwargs) : CM.t :=
  CM.Build_t (supplied_or 0%float (CM.arg_engagement_score kw))
             (supplied_or 0%float (CM.arg_intent_strength kw))
             (supplied_or 0%float (CM.arg_urgency_level kw))
             (supplied_or 0%float (CM.arg_sentiment_score kw))
             (supplied_or 0%Z (CM.arg_question_count kw))
             (supplied_or 0%float (CM.arg_response_time_avg kw))
             (supplied_or 0%Z (CM.arg_conversation_length kw)).

(** C4: the construction of a [ConversationMetrics] succeeds if and only if
    engagement_score, intent_strength and urgency_level lie in [0,1],
    sentiment_score in [-1,1], and question_count, response_time_avg and
    conversation_length are at least 0; the record it builds then holds
    every field exactly as supplied. *)
Theorem C4_conversation_metrics_construction (kw : CM.kwargs) (m : CM.t) :
  CM.init kw = Valid m <->
  metrics_in_range kw /\ m = metrics_as_supplied kw.
Proof.
  unfold CM.init, metrics_in_range, metrics_as_supplied. split.
  - intros H. valid_inv H.
    apply defaulted_float_range in Hfield5, Hfield4, Hfield3, Hfield2.
    apply defaulted_int_ge in Hfield1, Hfield.
    apply defaulted_float_ge in Hfield0.
    destruct Hfield5 as [? ->], Hfield4 as [? ->], Hfield3 as [? ->],
      Hfield2 as [? ->], Hfield1 as [? ->], Hfield0 as [? ->],
      Hfield as [? ->].
    repeat split; assumption.
  - intros [(H1 & H2 & H3 & H4 & H5 & H6 & H7) ->].
    assert (E1 := proj2 (defaulted_float_range 0 1 0 _ _) (conj H1 eq_refl)).
    assert (E2 := proj2 (defaulted_float_range 0 1 0 _ _) (conj H2 eq_refl)).
    assert (E3 := proj2 (defaulted_float_range 0 1 0 _ _) (conj H3 eq_refl)).
    assert (E4 := proj2 (defaulted_float_range (-1) 1 0 _ _) (conj H4 eq_refl)).
    assert (E5 := proj2 (defaulted_int_ge 0 0 _ _) (conj H5 eq_refl)).
    assert (E6 := proj2 (defaulted_float_ge 0 0 _ _) (conj H6 eq_refl)).
    assert (E7 := proj2 (defaulted_int_ge 0 0 _ _) (conj H7 eq_refl)).
    unfold CM.validate_engagement_score, CM.validate_intent_strength,
      CM.validate_urgency_level, CM.validate_sentiment_score,
      CM.validate_question_count, CM.validate_response_time_avg,
      CM.validate_conversation_length.
    rewrite E1, E2, E3, E4, E5, E6, E7. reflexivity.
Qed.

Definition example_metrics_args : CM.kwargs :=
  CM.Build_kwargs (Some 0.8%float) (Some 0.9%float) (Some 0.4%float)
                  (Some 0.7%float) (Some 3%Z) None (Some 12%Z).

Lemma C4_witness_example_metrics :
  CM.init example_metrics_args = Valid (CM.Build_t 0.8 0.9 0.4 0.7 3 0 12).
Proof.
  apply (proj2 (C4_conversation_metrics_construction example_metrics_args
                  (CM.Build_t 0.8 0.9 0.4 0.7 3 0 12))).
  split; [|reflexivity].
  unfold metrics_in_range, example_metrics_args, when_supplied. simpl.
  repeat split; try (vm_compute; reflexivity); try lia.
Defined.

(** An engagement score above 1, a NaN urgency and a negative message
    count are reported together, each under its field. *)
Lemma example_metrics_errors :
  CM.init (CM.Build_kwargs (Some 1.5%float) None (Some nan) None None None
                           (Some (-1)%Z))
  = Invalid [("engagement_score", NumberNotLeError (NFloat 1));
             ("urgency_level", NumberNotGeError (NFloat 0));
             ("conversation_length", NumberNotGeError (NInt 0))].
Proof. vm_compute. reflexivity. Qed.

(** ** Sentiment values *)

Module CCR := Lead.ConversationContextRequest.

(** A sentiment value inside [-1, 1]; NaN is outside. *)
Definition sentiment_in_range (v : float) : bool :=
  PyFloat.between (-1) v 1.

Lemma float_range_err lo hi v :
  PyFloat.between lo v hi = false ->
  exists e, float_range lo hi v = Err e.
Proof.
  unfold float_range, float_ge, float_le, PyFloat.between, PyFloat.ge, bind.
  destruct (PyFloat.le lo v); simpl.
  - intros ->. eauto.
  - intros _. eauto.
Qed.

Lemma check_scores_ok (l : list float) :
  CCR.check_scores l = Ok tt <-> forallb sentiment_in_range l = true.
Proof.
  induction l as [|x r IH]; simpl; [tauto|].
  unfold sentiment_in_range at 1.
  destruct (PyFloat.between (-1) x 1); simpl; [exact IH|].
  split; discriminate.
Qed.

Lemma check_scores_err (l : list float) :
  forallb sentiment_in_range l = false ->
  CCR.check_scores l = Err CCR.sentiment_error.
Proof.
  induction l as [|x r IH]; simpl; [discriminate|].
  unfold sentiment_in_range at 1.
  destruct (PyFloat.between (-1) x 1); simpl; [exact IH|reflexivity].
Qed.

Lemma validate_sentiment_history_ok (l w : list float) :
  CCR.validate_sentiment_history l = Ok w <->
  forallb sentiment_in_range l = true /\ w = l.
Proof.
  unfold CCR.validate_sentiment_history.
  destruct (forallb sentiment_in_range l) eqn:E.
  - apply check_scores_ok in E. rewrite E. simpl.
    split; [intros H; injection H as <-; auto | intros [_ ->]; reflexivity].
  - rewrite (check_scores_err _ E). simpl.
    split; [discriminate | intros [H _]; discriminate].
Qed.

(** C3: a sentiment value outside [-1, 1] makes the construction fail with
    an error on its field, both as [ConversationMetrics.sentiment_score]
    and as an element of [ConversationContextRequest.sentiment_history];
    no value is stored in that case, so none is clamped.  A construction
    that succeeds stores the sentiment values unchanged, and the field
    validators accept every in-range value as it is. *)
Theorem C3_sentiment_rejected_not_clamped :
  (forall (kw : CM.kwargs) (v : float),
      CM.arg_sentiment_score kw = Some v ->
      sentiment_in_range v = false ->
      exists e, has_error "sentiment_score" e (CM.init kw))
  /\ (forall (kw : CCR.kwargs) (l : list float) (x : float),
         CCR.arg_sentiment_history kw = Some l ->
         In x l -> sentiment_in_range x = false ->
         has_error "sentiment_history" CCR.sentiment_error (CCR.init kw))
  /\ (forall (v : float),
         sentiment_in_range v = true ->
         CM.validate_sentiment_score (Some v) = Ok v)
  /\ (forall (l : list float),
         (forall x, In x l -> sentiment_in_range x = true) ->
         CCR.validate_sentiment_history l = Ok l)
  /\ (forall (kw : CM.kwargs) (v : float) (m : CM.t),
         CM.arg_sentiment_score kw = Some v ->
         CM.init kw = Valid m ->
         sentiment_in_range v = true /\ CM.sentiment_score m = v)
  /\ (forall (kw : CCR.kwargs) (l : list float) (m : CCR.t),
         CCR.arg_sentiment_history kw = Some l ->
         CCR.init kw = Valid m ->
         (forall x, In x l -> sentiment_in_range x = true)
         /\ CCR.sentiment_history m = l).
Proof.
  repeat split.
  - intros kw v Hv Hr. unfold CM.init, CM.validate_sentiment_score.
    rewrite Hv. simpl.
    destruct (float_range_err (-1) 1 v Hr) as [e He]. exists e. rewrite He.
    do 3 apply has_error_ap_l. apply has_error_ap_r. apply has_error_field.
  - intros kw l x Hl Hx Hr. unfold CCR.init. rewrite Hl. simpl.
    assert (E : forallb sentiment_in_range l = false).
    { destruct (forallb sentiment_in_range l) eqn:E; [|reflexivity].
      rewrite forallb_forall in E. specialize (E x Hx). congruence. }
    unfold CCR.validate_sentiment_history.
    rewrite (check_scores_err _ E). simpl.
    apply has_error_ap_l. apply has_error_ap_r. left. reflexivity.
  - intros v Hr. unfold CM.validate_sentiment_score. simpl.
    apply float_range_ok. auto.
  - intros l Hl. apply validate_sentiment_history_ok. split; [|reflexivity].
    apply forallb_forall. exact Hl.
  - unfold CM.init, CM.validate_sentiment_score in H0. valid_inv H0.
    rewrite H in *. simpl in *.
    apply float_range_ok in Hfield2. tauto.
  - unfold CM.init, CM.validate_sentiment_score in H0. valid_inv H0.
    rewrite H in *. simpl in *.
    apply float_range_ok in Hfield2. tauto.
  - unfold CCR.init in H0. valid_inv H0. rewrite H in *. simpl in *.
    apply validate_sentiment_history_ok in Hfield0.
    destruct Hfield0 as [F _]. rewrite forallb_forall in F. auto.
  - unfold CCR.init in H0. valid_inv H0. rewrite H in *. simpl in *.
    apply validate_sentiment_history_ok in Hfield0.
    now destruct Hfield0 as [_ ->].
Qed.

Definition context_args (history : list float) : CCR.kwargs :=
  CCR.Build_kwargs (Some 4%Z) (Some 120%Z) None (Some history) None.

Lemma C3_witness_out_of_range_sentiment :
  (exists e,
      has_error "sentiment_score" e
        (CM.init (CM.Build_kwargs None None None (Some 1.5%float) None None
                                  None)))
  /\ has_error "sentiment_history" CCR.sentiment_error
               (CCR.init (context_args [0.2; -3; 0.5]%float))
  /\ CCR.validate_sentiment_history [0.2; -1; 1]%float
     = Ok [0.2; -1; 1]%float.
Proof.
  destruct C3_sentiment_rejected_not_clamped as (H1 & H2 & _ & H4 & _).
  split; [|split].
  - apply (H1 _ 1.5%float); vm_compute; reflexivity.
  - apply (H2 _ [0.2; -3; 0.5]%float (-3)%float).
    + reflexivity.
    + right. left. reflexivity.
    + vm_compute. reflexivity.
  - apply H4. intros x [<-|[<-|[<-|[]]]]; vm_compute; reflexivity.
Defined.

(** ** EnhancedLeadData: the lead score *)

Module ELD := EnhancedLead.EnhancedLeadData.

(** A clock that advances by one microsecond at every reading. *)
Definition ticking_clock : Datetime.clock :=
  fun n => (1700000000000000 + Z.of_nat n)%Z.

Definition conv_1 : PyStr.str := PyStr.of_string "conv_1".
Definition bot_1 : PyStr.str := PyStr.of_string "bot_1".

Lemma lead_score_field_ok (v w : float) :
  ELD.lead_score_field (Some v) = Ok w <->
  PyFloat.between 0 v 100 = true /\ w = ELD.validate_lead_score v.
Proof.
  unfold ELD.lead_score_field. simpl.
  destruct (float_range 0 100 v) as [u|e] eqn:E; simpl.
  - apply float_range_ok in E. destruct E as [Hr ->]. split.
    + intros H. injection H as <-. auto.
    + intros [_ ->]. reflexivity.
  - split; [discriminate|]. intros [Hr _].
    assert (float_range 0 100 v = Ok v) as E' by (apply float_range_ok; auto).
    congruence.
Qed.

Lemma validate_lead_score_between (v : float) :
  PyFloat.between 0 (ELD.validate_lead_score v) 100 = true.
Proof. apply (PyFloat.clamp_between 0 100 v). reflexivity. Qed.

Lemma init_lead_score clk kw calls m :
  fst (ELD.init clk kw calls) = Valid m ->
  ELD.lead_score_field (ELD.arg_lead_score kw) = Ok (ELD.lead_score m).
Proof.
  unfold ELD.init.
  destruct (ELD.created_at_field clk (ELD.arg_created_at kw) calls) as [c n1].
  destruct (ELD.updated_at_field clk (ELD.arg_updated_at kw) n1) as [u n2].
  cbn [fst]. intros H. valid_inv H. simpl. exact Hfield9.
Qed.

(** On an in-range value the clamp returns the value itself, except that
    it returns [0.0] on the negative zero. *)
Lemma validate_lead_score_in_range (v : float) :
  PyFloat.between 0 v 100 = true ->
  ELD.validate_lead_score v = v
  \/ (PyFloat.is_zero v /\ ELD.validate_lead_score v = 0%float).
Proof.
  intros Hr.
  assert (E : PyFloat.eq (ELD.validate_lead_score v) v = true)
    by (apply (PyFloat.clamp_in_range 0 100 v); [reflexivity|exact Hr]).
  destruct (PyFloat.eq_cases _ _ E) as [H|[_ Hz]]; [now left|].
  right. split; [exact Hz|].
  unfold ELD.validate_lead_score, PyFloat.py_max, PyFloat.py_min, PyFloat.gt.
  rewrite (PyFloat.zero_lt_l v 100 Hz).
  replace (PyFloat.lt 0 100) with true by reflexivity.
  rewrite (PyFloat.zero_lt_r v 0 Hz).
  reflexivity.
Qed.

(** Assigning to [lead_score] on an instance stores the value as it is and
    leaves [updated_at] alone: neither validator runs. *)
Remark assign_lead_score_unvalidated (m : ELD.t) (v : float) :
  ELD.lead_score (ELD.assign_lead_score m v) = v
  /\ ELD.updated_at (ELD.assign_lead_score m v) = ELD.updated_at m
  /\ ELD.created_at (ELD.assign_lead_score m v) = ELD.created_at m.
Proof. repeat split; reflexivity. Qed.

(** C1 (counterexample): a lead score of 150 is not stored as 100, the
    value of the clamp: the construction fails on the bound [le=100.0]. *)
Lemma C1_counterexample_out_of_range_rejected :
  fst (ELD.init ticking_clock
                (ELD.with_lead_score (ELD.minimal_args conv_1 bot_1) 150) 0)
  = Invalid [("lead_score", NumberNotLeError (NFloat 100))]
  /\ ELD.validate_lead_score 150 = 100%float.
Proof. split; vm_compute; reflexivity. Qed.

(** C1 (amended): a float supplied as lead_score passes validation exactly
    when it lies in [0, 100] (NaN does not), and then the value stored is
    [max(0.0, min(100.0, v))], which compares equal to [v] (it is [v]
    itself, or [0.0] for the negative zero); a value outside
    the range makes the construction fail with an error on the field, and a
    construction given its two required identifiers and an in-range score
    succeeds.  Every constructed record therefore has 0 <= lead_score <= 100, and the clamp
    is idempotent and lands in [0, 100] on every float. *)
Theorem C1_lead_score_validated_in_range :
  (forall v w : float,
      ELD.lead_score_field (Some v) = Ok w <->
      PyFloat.between 0 v 100 = true /\ w = ELD.validate_lead_score v)
  /\ (forall v : float,
         PyFloat.between 0 v 100 = true ->
         PyFloat.eq (ELD.validate_lead_score v) v = true
         /\ (ELD.validate_lead_score v = v
             \/ (PyFloat.is_zero v /\ ELD.validate_lead_score v = 0%float)))
  /\ (forall clk kw calls (v : float),
         ELD.arg_lead_score kw = Some v ->
         PyFloat.between 0 v 100 = false ->
         exists e, has_error "lead_score" e (fst (ELD.init clk kw calls)))
  /\ (forall clk kw calls,
         ELD.arg_conversation_id kw <> None ->
         ELD.arg_chatbot_id kw <> None ->
         when_supplied (fun v => PyFloat.between 0 v 100 = true)
                       (ELD.arg_lead_score kw) ->
         is_valid (fst (ELD.init clk kw calls)) = true)
  /\ (forall clk kw calls m,
         fst (ELD.init clk kw calls) = Valid m ->
         PyFloat.between 0 (ELD.lead_score m) 100 = true
         /\ when_supplied (fun v => PyFloat.between 0 v 100 = true
                                    /\ ELD.lead_score m
                                       = ELD.validate_lead_score v)
                          (ELD.arg_lead_score kw))
  /\ (forall v : float,
         ELD.validate_lead_score (ELD.validate_lead_score v)
         = ELD.validate_lead_score v)
  /\ (forall v : float,
         PyFloat.between 0 (ELD.validate_lead_score v) 100 = true).
Proof.
  split; [exact lead_score_field_ok|].
  split.
  { intros v Hv. split.
    - apply (PyFloat.clamp_in_range 0 100 v); [reflexivity|exact Hv].
    - apply validate_lead_score_in_range. exact Hv. }
  split.
  { intros clk kw calls v Hv Hr. unfold ELD.init.
    destruct (ELD.created_at_field clk (ELD.arg_created_at kw) calls) as [c n1].
    destruct (ELD.updated_at_field clk (ELD.arg_updated_at kw) n1) as [u n2].
    cbn [fst]. rewrite Hv. unfold ELD.lead_score_field, defaulted.
    destruct (float_range_err 0 100 v Hr) as [e He]. exists e. rewrite He.
    cbn [bind]. do 10 apply has_error_ap_l. apply has_error_ap_r.
    apply has_error_field. }
  split.
  { intros clk kw calls Hc Hb Hs. unfold ELD.init.
    destruct (ELD.created_at_field clk (ELD.arg_created_at kw) calls) as [c n1].
    destruct (ELD.updated_at_field clk (ELD.arg_updated_at kw) n1) as [u n2].
    cbn [fst]. rewrite !defaulted_any.
    destruct (ELD.arg_conversation_id kw) as [cid|]; [|congruence].
    destruct (ELD.arg_chatbot_id kw) as [bid|]; [|congruence].
    destruct (ELD.arg_lead_score kw) as [v|]; simpl in Hs.
    - rewrite (proj2 (lead_score_field_ok v _) (conj Hs eq_refl)).
      reflexivity.
    - reflexivity. }
  split.
  { intros clk kw calls m H. apply init_lead_score in H.
    destruct (ELD.arg_lead_score kw) as [v|]; simpl.
    - apply lead_score_field_ok in H. destruct H as [Hr ->].
      split; [apply validate_lead_score_between|auto].
    - simpl in H. injection H as <-. split; [reflexivity|exact I]. }
  split.
  { intros v. apply (PyFloat.clamp_idempotent 0 100 v). }
  exact validate_lead_score_between.
Qed.

Lemma C1_witness_in_range_score :
  ELD.lead_score_field (Some 42.5%float) = Ok 42.5%float
  /\ PyFloat.eq (ELD.validate_lead_score 42.5) 42.5 = true
  /\ (exists e,
         has_error "lead_score" e
           (fst (ELD.init ticking_clock
                   (ELD.with_lead_score (ELD.minimal_args conv_1 bot_1) 150)
                   0))).
Proof.
  destruct C1_lead_score_validated_in_range as (H1 & H2 & H3 & _).
  split; [|split].
  - apply H1. split; vm_compute; reflexivity.
  - apply H2. vm_compute. reflexivity.
  - apply (H3 ticking_clock _ 0%nat 150%float); vm_compute; reflexivity.
Defined.

(** ** EnhancedLeadData: the timestamps *)

(** The number of clock readings the construction makes before the one
    stored in [updated_at]: one for each of the two timestamps left out. *)
Definition readings_before_update (kw : ELD.kwargs) : nat :=
  (match ELD.arg_created_at kw with Some _ => 0 | None => 1 end
   + match ELD.arg_updated_at kw with Some _ => 0 | None => 1 end)%nat.

Lemma init_timestamps clk kw calls m calls' :
  ELD.init clk kw calls = (Valid m, calls') ->
  ELD.created_at m = supplied_or (clk calls) (ELD.arg_created_at kw)
  /\ ELD.updated_at m = clk (calls + readings_before_update kw)%nat
  /\ calls' = S (calls + readings_before_update kw).
Proof.
  unfold ELD.init, ELD.created_at_field, ELD.updated_at_field,
    ELD.set_updated_at, Datetime.utcnow, readings_before_update.
  destruct (ELD.arg_created_at kw) as [c|], (ELD.arg_updated_at kw) as [u|];
    cbv beta iota zeta; intros H; apply pair_equal_spec in H;
    destruct H as [H <-]; valid_inv H; simpl;
    injection Hfield4 as <-; injection Hfield3 as <-;
    rewrite ?Nat.add_0_r; repeat split;
    try reflexivity; f_equal; lia.
Qed.

Definition year_2100 : Datetime.datetime := 4102444800000000%Z.

(** C2 (counterexample): a record constructed with caller-supplied
    timestamps in the future has [updated_at] before [created_at]: the
    supplied [updated_at] is replaced by the clock reading, the supplied
    [created_at] is kept. *)
Lemma C2_counterexample_future_created_at :
  exists m : ELD.t,
    fst (ELD.init ticking_clock
                  (ELD.with_timestamps (ELD.minimal_args conv_1 bot_1)
                                       (Some year_2100)
                                       (Some (year_2100 + 1)%Z))
                  0) = Valid m
    /\ (ELD.updated_at m < ELD.created_at m)%Z.
Proof.
  eexists. split; [vm_compute; reflexivity|]. vm_compute. reflexivity.
Qed.

(** C2 (amended): in every successfully constructed [EnhancedLeadData],
    [updated_at] is a clock reading taken during that construction (the
    last one), whatever [updated_at] the caller supplied, and [created_at]
    is the caller's value when supplied and otherwise the first clock reading
    of the construction.  With a clock that never goes back, [updated_at >=
    created_at] holds when [created_at] is left out or is not later than the
    clock at the start of the construction. *)
Theorem C2_updated_at_is_construction_time
        (clk : Datetime.clock) (kw : ELD.kwargs) (calls calls' : nat)
        (m : ELD.t) :
  ELD.init clk kw calls = (Valid m, calls') ->
  (calls < calls')%nat
  /\ ELD.updated_at m = clk (pred calls')
  /\ ELD.created_at m = supplied_or (clk calls) (ELD.arg_created_at kw)
  /\ (Datetime.monotone clk ->
      when_supplied (fun c => (c <= clk calls)%Z) (ELD.arg_created_at kw) ->
      (ELD.created_at m <= ELD.updated_at m)%Z).
Proof.
  intros H. apply init_timestamps in H. destruct H as (Hc & Hu & ->).
  split; [lia|]. split; [exact Hu|]. split; [exact Hc|].
  intros Hm Hs. rewrite Hc, Hu.
  assert (L : (clk calls <= clk (calls + readings_before_update kw)%nat)%Z)
    by (apply Datetime.monotone_le; [exact Hm|lia]).
  destruct (ELD.arg_created_at kw) as [c|]; simpl in *; lia.
Qed.

Lemma ticking_clock_monotone : Datetime.monotone ticking_clock.
Proof. intros n. unfold ticking_clock. lia. Qed.

Definition minimal_lead : ELD.t :=
  ELD.Build_t None conv_1 bot_1 EnhancedLead.ContactInfo_default
              EnhancedLead.QualificationData_default CM.default
              EnhancedLead.CONVERSATIONAL 0%float EnhancedLead.LOW
              EnhancedLead.NEW EnhancedLead.INITIAL_INTEREST None
              (ticking_clock 0) (ticking_clock 2) None
              (PyStr.of_string "chatbot") [] [].

Lemma C2_witness_minimal_lead :
  ELD.init ticking_clock (ELD.minimal_args conv_1 bot_1) 0
  = (Valid minimal_lead, 3%nat)
  /\ (ELD.created_at minimal_lead <= ELD.updated_at minimal_lead)%Z.
Proof.
  assert (E : ELD.init ticking_clock (ELD.minimal_args conv_1 bot_1) 0
              = (Valid minimal_lead, 3%nat)) by (vm_compute; reflexivity).
  split; [exact E|].
  apply (proj2 (proj2 (proj2
           (C2_updated_at_is_construction_time ticking_clock
              (ELD.minimal_args conv_1 bot_1) 0 3 minimal_lead E)))).
  - exact ticking_clock_monotone.
  - exact I.
Defined.

(** ** Scoring weights and the scoring aggregator *)

Module LSF := EnhancedLead.LeadScoringFactors.

(** C5 (counterexample): [LeadScoringFactors], the model that carries the
    scoring weights, accepts a negative weight, and stores the default 0.0
    for every weight the caller leaves out, down to the all-zero
    configuration. *)
Lemma C5_counterexample_negative_weight_accepted :
  LSF.init (LSF.Build_kwargs (Some (-1)%float) None None None None)
  = Valid (LSF.Build_t (-1) 0 0 0 0)
  /\ PyFloat.lt (-1) 0 = true
  /\ LSF.init LSF.no_args = Valid (LSF.Build_t 0 0 0 0 0)
  /\ Scoring.all_zero (LSF.Build_t 0 0 0 0 0) = true.
Proof. repeat split; vm_compute; reflexivity. Qed.

Lemma invalid_weights_iff (w : Scoring.weights) :
  Scoring.invalid_weights w = true <->
  (exists x, In x (Scoring.weight_list w) /\ PyFloat.lt x 0 = true)
  \/ (forall x, In x (Scoring.weight_list w) -> PyFloat.eq x 0 = true).
Proof.
  unfold Scoring.invalid_weights, Scoring.some_negative, Scoring.all_zero.
  rewrite orb_true_iff, existsb_exists, forallb_forall. tauto.
Qed.

(** C5 (amended): a scoring pass whose weights contain a negative one, or
    are all zero, fails with [InvalidWeightConfiguration] and returns no
    score, whatever the other inputs.  The model [LeadScoringFactors]
    itself constrains no weight: its construction succeeds on every
    argument list, keeps each supplied float as it is and stores 0.0 for
    each weight left out. *)
Theorem C5_invalid_weights_abort_scoring :
  (forall engagement_of intent_of urgency_of fit_of m s q
          (w : Scoring.weights),
      (exists x, In x (Scoring.weight_list w) /\ PyFloat.lt x 0 = true)
      \/ (forall x, In x (Scoring.weight_list w) -> PyFloat.eq x 0 = true) ->
      Scoring.compute_score engagement_of intent_of urgency_of fit_of m s q w
      = inl Scoring.InvalidWeightConfiguration)
  /\ (forall kw : LSF.kwargs,
         LSF.init kw
         = Valid (LSF.Build_t
                    (supplied_or 0%float (LSF.arg_engagement_factor kw))
                    (supplied_or 0%float (LSF.arg_intent_factor kw))
                    (supplied_or 0%float (LSF.arg_qualification_factor kw))
                    (supplied_or 0%float (LSF.arg_urgency_factor kw))
                    (supplied_or 0%float (LSF.arg_fit_factor kw)))).
Proof.
  split.
  - intros eng int urg fit m s q w H.
    apply invalid_weights_iff in H.
    unfold Scoring.compute_score. now rewrite H.
  - intros kw. unfold LSF.init. rewrite !defaulted_any. reflexivity.
Qed.

Lemma C5_witness_negative_weight_aborts :
  Scoring.compute_score CM.engagement_score
                        (fun m _ => CM.intent_strength m)
                        (fun m _ => CM.urgency_level m)
                        Scoring.fit_unconfigured
                        CM.default EnhancedLead.LeadSignals_default
                        EnhancedLead.QualificationData_default
                        (LSF.Build_t 0.5 (-0.25) 0.5 0 0)
  = inl Scoring.InvalidWeightConfiguration.
Proof.
  apply (proj1 C5_invalid_weights_abort_scoring).
  left. exists (-0.25)%float. split.
  - right. left. reflexivity.
  - vm_compute. reflexivity.
Defined.

(** C6: for every input and every valid weight configuration (no negative
    weight, not all weights zero), [compute_score] returns a score; that
    score is the weighted sum of the factor values divided by the sum of the
    weights, scaled by 100 and clamped with [max(0, min(100, value))], and it
    lies in [0, 100]. *)
Theorem C6_compute_score_in_range
        engagement_of intent_of urgency_of fit_of
        (m : CM.t) (s : EnhancedLead.LeadSignals)
        (q : EnhancedLead.QualificationData) (w : Scoring.weights) :
  Scoring.invalid_weights w = false ->
  exists score : float,
    Scoring.compute_score engagement_of intent_of urgency_of fit_of m s q w
    = inr (score,
           Scoring.factors_of engagement_of intent_of urgency_of fit_of m s q)
    /\ score
       = PyFloat.py_max 0
           (PyFloat.py_min 100
              (Scoring.raw_score w
                 (Scoring.factors_of engagement_of intent_of urgency_of
                                     fit_of m s q)))
    /\ PyFloat.between 0 score 100 = true.
Proof.
  intros Hw. unfold Scoring.compute_score. rewrite Hw.
  eexists. split; [reflexivity|]. split; [reflexivity|].
  apply (PyFloat.clamp_between 0 100). reflexivity.
Qed.

(** The example of the specification: engagement 0.8, intent 0.9, urgency
    0.4, budget and need filled, default weights, no customer profile. *)
Definition example_metrics : CM.t :=
  CM.Build_t 0.8 0.9 0.4 0.7 0 0 0.

Definition example_qualification : EnhancedLead.QualificationData :=
  EnhancedLead.Build_QualificationData
    (Some (PyStr.of_string "50k")) None (Some (PyStr.of_string "crm"))
    None None None None [].

Definition example_weights : Scoring.weights :=
  LSF.Build_t 0.2 0.3 0.3 0.1 0.1.

Definition example_score :=
  Scoring.compute_score CM.engagement_score
                        (fun m _ => CM.intent_strength m)
                        (fun m _ => CM.urgency_level m)
                        Scoring.fit_unconfigured
                        example_metrics EnhancedLead.LeadSignals_default
                        example_qualification example_weights.

Lemma example_score_in_high_band :
  exists score f,
    example_score = inr (score, f)
    /\ Scoring.qualification f = 0.5%float
    /\ PyFloat.le 60 score = true /\ PyFloat.lt score 85 = true.
Proof.
  eexists. eexists. split; [vm_compute; reflexivity|].
  repeat split; vm_compute; reflexivity.
Qed.

Lemma C6_witness_example_score :
  exists score : float,
    example_score
    = inr (score,
           Scoring.factors_of CM.engagement_score
                              (fun m _ => CM.intent_strength m)
                              (fun m _ => CM.urgency_level m)
                              Scoring.fit_unconfigured
                              example_metrics EnhancedLead.LeadSignals_default
                              example_qualification)
    /\ score
       = PyFloat.py_max 0
           (PyFloat.py_min 100
              (Scoring.raw_score example_weights
                 (Scoring.factors_of CM.engagement_score
                                     (fun m _ => CM.intent_strength m)
                                     (fun m _ => CM.urgency_level m)
                                     Scoring.fit_unconfigured
                                     example_metrics
                                     EnhancedLead.LeadSignals_default
                                     example_qualification)))
    /\ PyFloat.between 0 score 100 = true.
Proof.
  apply (C6_compute_score_in_range CM.engagement_score
           (fun m _ => CM.intent_strength m)
           (fun m _ => CM.urgency_level m)
           Scoring.fit_unconfigured
           example_metrics EnhancedLead.LeadSignals_default
           example_qualification example_weights).
  vm_compute. reflexivity.
Defined.

(** ** The stage machine *)

Module SM := StageMachine.

Lemma not_earlier_refl (s : EnhancedLead.QualificationStage) :
  s <> EnhancedLead.DISQUALIFIED -> SM.not_earlier s s.
Proof.
  intros H. destruct s; try congruence;
    eexists; eexists; (split; [reflexivity|split; [reflexivity|lia]]).
Qed.

Lemma not_earlier_trans (s1 s2 s3 : EnhancedLead.QualificationStage) :
  SM.not_earlier s1 s2 -> SM.not_earlier s2 s3 -> SM.not_earlier s1 s3.
Proof.
  intros (i & j & Hi & Hj & Hij) (j' & k & Hj' & Hk & Hjk).
  exists i, k. rewrite Hj in Hj'. injection Hj' as <-.
  repeat split; try assumption. lia.
Qed.

(** One step leaves a non-terminal stage, and goes to the next stage of
    the order or to DISQUALIFIED. *)
Lemma step_forward c o s s' :
  SM.step c o s s' ->
  SM.terminal s = false
  /\ (s' = EnhancedLead.DISQUALIFIED \/ SM.not_earlier s s').
Proof.
  intros H. destruct H as [s s' Hn _|s Ht _].
  - destruct s; simpl in Hn; try discriminate; injection Hn as <-;
      (split; [reflexivity|]); right;
      eexists; eexists; (split; [reflexivity|split; [reflexivity|lia]]).
  - split; [exact Ht|now left].
Qed.

Lemma not_earlier_not_disqualified s s' :
  SM.not_earlier s s' -> s' <> EnhancedLead.DISQUALIFIED.
Proof.
  intros (i & j & _ & Hj & _) ->. discriminate Hj.
Qed.

(** The executable machine takes steps of the relation, or stays. *)
Lemma transition_step c o s :
  SM.transition c o s = s \/ SM.step c o s (SM.transition c o s).
Proof.
  unfold SM.transition.
  destruct (SM.terminal s) eqn:Ht; [now left|].
  destruct (SM.must_disqualify c o) eqn:Hd.
  - right. now apply SM.step_disqualify.
  - destruct (SM.may_advance c o s) eqn:Ha; [|now left].
    destruct (SM.next_stage s) as [s'|] eqn:Hn; [|now left].
    right. now apply SM.step_advance.
Qed.

Lemma transitions_trans c s1 s2 s3 :
  SM.transitions c s1 s2 -> SM.transitions c s2 s3 -> SM.transitions c s1 s3.
Proof.
  intros H12 H23. induction H12 as [s|s s' s'' o Hs _ IH]; [exact H23|].
  eapply SM.transitions_step; [exact Hs|]. apply IH. exact H23.
Qed.

(** Every stage a lead goes through over a sequence of scoring passes is
    reached by a sequence of transitions. *)
Lemma run_transitions c os : forall s s',
  In s' (SM.run c os s) -> SM.transitions c s s'.
Proof.
  induction os as [|o rest IH]; simpl; intros s s' H; [contradiction|].
  assert (T : SM.transitions c s (SM.transition c o s)).
  { destruct (transition_step c o s) as [E|S].
    - rewrite E. apply SM.transitions_nil.
    - eapply SM.transitions_step; [exact S|apply SM.transitions_nil]. }
  destruct H as [<-|H]; [exact T|].
  eapply transitions_trans; [exact T|]. apply IH. exact H.
Qed.

(** C7: over every sequence of stage transitions, the stage reached is
    DISQUALIFIED or is not earlier than the starting stage in the order
    INITIAL_INTEREST, NEED_ASSESSMENT, BUDGET_QUALIFICATION,
    AUTHORITY_VERIFICATION, TIMELINE_DISCUSSION, QUALIFIED; and from QUALIFIED
    or DISQUALIFIED no transition leads anywhere else. *)
Theorem C7_stage_never_regresses
        (c : SM.config) (s s' : EnhancedLead.QualificationStage) :
  SM.transitions c s s' ->
  (s' = EnhancedLead.DISQUALIFIED \/ SM.not_earlier s s')
  /\ (SM.terminal s = true -> s' = s).
Proof.
  intros H. induction H as [s|s s' s'' o Hs Hrest [IHo IHt]].
  - split; [|reflexivity].
    destruct s; try (now left); right; apply not_earlier_refl; discriminate.
  - destruct (step_forward c o s s' Hs) as [Ht Hf]. split.
    + destruct IHo as [->|Hn]; [now left|].
      destruct Hf as [->|Hf].
      * left. apply IHt. reflexivity.
      * right. eapply not_earlier_trans; eassumption.
    + rewrite Ht. discriminate.
Qed.

(** A configuration for the examples: need gates the first stage, the
    thresholds grow with the stage, and three declining scores ending below
    25 disqualify. *)
Definition example_config : SM.config :=
  {| SM.gating_field := fun s q =>
       match s with
       | EnhancedLead.INITIAL_INTEREST
       | EnhancedLead.NEED_ASSESSMENT => EnhancedLead.need q
       | EnhancedLead.BUDGET_QUALIFICATION => EnhancedLead.budget q
       | EnhancedLead.AUTHORITY_VERIFICATION => EnhancedLead.authority q
       | _ => EnhancedLead.timeline q
       end;
     SM.threshold := fun s =>
       match s with
       | EnhancedLead.INITIAL_INTEREST => 10
       | EnhancedLead.NEED_ASSESSMENT => 30
       | EnhancedLead.BUDGET_QUALIFICATION => 45
       | EnhancedLead.AUTHORITY_VERIFICATION => 60
       | _ => 75
       end%float;
     SM.decline_window := 3;
     SM.low_score_floor := 25 |}.

Definition pass (scores : list float) : SM.observation :=
  {| SM.qualification := example_qualification;
     SM.scores := scores;
     SM.disqualifying_signal := false |}.

(** The disqualification example of the specification: scores 40, 30, 20
    against the floor 25 disqualify on the third pass. *)
Lemma example_disqualified_on_third_pass :
  SM.run example_config
         [pass [40]; pass [30; 40]; pass [20; 30; 40]]%float
         EnhancedLead.BUDGET_QUALIFICATION
  = [EnhancedLead.BUDGET_QUALIFICATION; EnhancedLead.BUDGET_QUALIFICATION;
     EnhancedLead.DISQUALIFIED].
Proof. vm_compute. reflexivity. Qed.

Lemma example_transitions :
  SM.transitions example_config EnhancedLead.INITIAL_INTEREST
                 EnhancedLead.DISQUALIFIED.
Proof.
  apply (run_transitions example_config
           [pass [40]; pass [30; 40]; pass [20; 30; 40]]%float).
  vm_compute. right. right. now left.
Defined.

Lemma C7_witness_example_run :
  (EnhancedLead.DISQUALIFIED = EnhancedLead.DISQUALIFIED
   \/ SM.not_earlier EnhancedLead.INITIAL_INTEREST EnhancedLead.DISQUALIFIED)
  /\ (SM.terminal EnhancedLead.INITIAL_INTEREST = true ->
      EnhancedLead.DISQUALIFIED = EnhancedLead.INITIAL_INTEREST).
Proof.
  exact (C7_stage_never_regresses example_config
           EnhancedLead.INITIAL_INTEREST EnhancedLead.DISQUALIFIED
           example_transitions).
Defined.

(** ** LeadAnalysisRequest: the message *)

Module LAR := Lead.LeadAnalysisRequest.

Lemma str_length_ok lo hi (v w : PyStr.str) :
  str_length (Some lo) (Some hi) v = Ok w <->
  (lo <= PyStr.len v <= hi)%Z /\ w = v.
Proof.
  unfold str_length.
  destruct (Z.ltb_spec (PyStr.len v) lo) as [L|L].
  - split; [discriminate|]. intros [H _]. lia.
  - destruct (Z.ltb_spec hi (PyStr.len v)) as [U|U].
    + split; [discriminate|]. intros [H _]. lia.
    + split; [intros H; injection H as <-; split; [lia|reflexivity]|].
      intros [_ ->]. reflexivity.
Qed.

Lemma str_max_length_ok hi (v w : PyStr.str) :
  str_length None (Some hi) v = Ok w <-> (PyStr.len v <= hi)%Z /\ w = v.
Proof.
  unfold str_length.
  destruct (Z.ltb_spec hi (PyStr.len v)) as [U|U].
  - split; [discriminate|]. intros [H _]. lia.
  - split; [intros H; injection H as <-; split; [lia|reflexivity]|].
    intros [_ ->]. reflexivity.
Qed.

Lemma validate_message_ok (v w : PyStr.str) :
  LAR.validate_message v = Ok w <->
  PyStr.all_space v = false /\ w = PyStr.strip v.
Proof.
  unfold LAR.validate_message. rewrite PyStr.truthy_strip.
  destruct (PyStr.all_space v) eqn:E.
  - cbn [negb]. rewrite orb_true_r.
    split; [discriminate|]. intros [H _]. discriminate.
  - destruct v as [|c r]; [discriminate E|]. cbn [PyStr.truthy negb orb].
    split; [intros H; injection H as <-; auto|].
    intros [_ ->]. reflexivity.
Qed.

Lemma message_field_ok (v w : PyStr.str) :
  LAR.message_field v = Ok w <->
  (1 <= PyStr.len v <= 2000)%Z /\ PyStr.all_space v = false
  /\ w = PyStr.strip v.
Proof.
  unfold LAR.message_field.
  destruct (str_length (Some 1%Z) (Some 2000%Z) v) as [u|e] eqn:E; simpl.
  - apply str_length_ok in E. destruct E as [L ->].
    rewrite validate_message_ok. tauto.
  - split; [discriminate|]. intros (L & _ & _).
    assert (str_length (Some 1%Z) (Some 2000%Z) v = Ok v) as E'
        by (apply str_length_ok; auto).
    congruence.
Qed.

(** C9: a message passes validation if and only if its length is between
    1 and 2000 characters and it has a character that is not whitespace;
    the value stored is the message stripped of surrounding whitespace, so
    an accepted message is stored non-empty, without leading and without
    trailing whitespace. *)
Theorem C9_message_validation :
  (forall v w : PyStr.str,
      LAR.message_field v = Ok w <->
      ((1 <= PyStr.len v <= 2000)%Z
       /\ exists c, In c v /\ PyStr.isspace c = false)
      /\ w = PyStr.strip v)
  /\ (forall v w : PyStr.str,
         LAR.message_field v = Ok w ->
         w <> [] /\ PyStr.head_ok w /\ PyStr.head_ok (rev w))
  /\ (forall (kw : LAR.kwargs) (r : LAR.t),
         LAR.init kw = Valid r <->
         exists v, LAR.arg_message kw = Some v
                   /\ LAR.message_field v = Ok (LAR.message r)
                   /\ LAR.conversation_context r
                      = LAR.arg_conversation_context kw).
Proof.
  split; [|split].
  - intros v w. rewrite message_field_ok, PyStr.all_space_false. tauto.
  - intros v w H. apply message_field_ok in H. destruct H as (_ & Hs & ->).
    split; [|split].
    + intros E. apply PyStr.strip_nil in E. congruence.
    + apply PyStr.strip_head.
    + apply PyStr.strip_last.
  - intros kw r. unfold LAR.init. split.
    + intros H. valid_inv H. apply required_ok in Hfield0.
      destruct Hfield0 as (v & Hv & Hm).
      apply (proj1 (any_ok _ _)) in Hfield.
      exists v. simpl. auto.
    + intros (v & Hv & Hm & Hc). rewrite Hv. simpl. rewrite Hm. simpl.
      destruct r as [msg ctx]. simpl in *. now rewrite Hc.
Qed.

Lemma C9_witness_padded_message :
  LAR.message_field (PyStr.of_string "  need a demo ")
  = Ok (PyStr.of_string "need a demo").
Proof.
  apply (proj1 C9_message_validation). split; [split|].
  - vm_compute. split; discriminate.
  - exists 110%N. split; [|reflexivity]. right. right. left. reflexivity.
  - vm_compute. reflexivity.
Defined.

Lemma example_blank_message_rejected :
  LAR.message_field (PyStr.of_string "   ")
  = Err (ValueError "Message cannot be empty")
  /\ LAR.message_field [] = Err (AnyStrMinLengthError 1).
Proof. split; vm_compute; reflexivity. Qed.

(** ** CRMLeadData: the email *)

Module CRM := Lead.CRMLeadData.
Module LSR := Lead.LeadScoreResponse.

(** The code point of ['@']. *)
Definition at_sign : PyStr.char := 64%N.

Lemma contains_In (c : PyStr.char) (s : PyStr.str) :
  PyStr.contains c s = true <-> In c s.
Proof.
  unfold PyStr.contains. rewrite existsb_exists. split.
  - intros (x & Hx & E). apply N.eqb_eq in E. now subst x.
  - intros H. exists c. split; [exact H|apply N.eqb_refl].
Qed.

Lemma validate_email_ok str_lower (s : PyStr.str) (w : option PyStr.str) :
  PyStr.all_space s = false ->
  (CRM.validate_email str_lower (Some s) = Ok w <->
   In at_sign s /\ w = Some (str_lower (PyStr.strip s))).
Proof.
  intros Hs. unfold CRM.validate_email.
  rewrite PyStr.truthy_strip, Hs. cbn [negb].
  rewrite <- contains_In. unfold at_sign.
  destruct (PyStr.contains 64%N s); cbn [negb].
  - split; [intros H; injection H as <-; auto|]. intros [_ ->]. reflexivity.
  - split; [discriminate|]. intros [H _]. discriminate.
Qed.

Lemma validate_email_blank str_lower (s : PyStr.str) :
  PyStr.all_space s = true ->
  CRM.validate_email str_lower (Some s) = Ok (Some s).
Proof.
  intros Hs. unfold CRM.validate_email.
  now rewrite PyStr.truthy_strip, Hs.
Qed.

Lemma crm_init_email str_lower str_isdigit kw m :
  CRM.init str_lower str_isdigit kw = Valid m ->
  CRM.validate_email str_lower (CRM.arg_email kw) = Ok (CRM.email m).
Proof.
  unfold CRM.init. intros H. valid_inv H. simpl. exact Hfield11.
Qed.

(** C8: for an email that is a string with a non-whitespace character,
    validation succeeds if and only if the string contains ['@'], and the
    value stored is the input stripped of surrounding whitespace and then
    lowercased; an email that is [None] or made of whitespace only is
    accepted and stored unchanged.  A constructed [CRMLeadData] holds the
    email so validated, and a construction with a non-blank email without
    ['@'] fails with the error of the validator. *)
Theorem C8_email_validation
        (str_lower : PyStr.str -> PyStr.str)
        (str_isdigit : PyStr.char -> bool) :
  (forall (s : PyStr.str) (w : option PyStr.str),
      PyStr.all_space s = false ->
      (CRM.validate_email str_lower (Some s) = Ok w <->
       In at_sign s /\ w = Some (str_lower (PyStr.strip s))))
  /\ CRM.validate_email str_lower None = Ok None
  /\ (forall s : PyStr.str,
         PyStr.all_space s = true ->
         CRM.validate_email str_lower (Some s) = Ok (Some s))
  /\ (forall (kw : CRM.kwargs) (m : CRM.t),
         CRM.init str_lower str_isdigit kw = Valid m ->
         CRM.validate_email str_lower (CRM.arg_email kw) = Ok (CRM.email m))
  /\ (forall (kw : CRM.kwargs) (s : PyStr.str),
         CRM.arg_email kw = Some s ->
         PyStr.all_space s = false -> ~ In at_sign s ->
         has_error "email" (ValueError "Invalid email format")
                   (CRM.init str_lower str_isdigit kw)).
Proof.
  split; [exact (validate_email_ok str_lower)|].
  split; [reflexivity|].
  split; [exact (validate_email_blank str_lower)|].
  split; [exact (crm_init_email str_lower str_isdigit)|].
  intros kw s Hs Hb Hat. unfold CRM.init. rewrite Hs.
  assert (E : CRM.validate_email str_lower (Some s)
              = Err (ValueError "Invalid email format")).
  { unfold CRM.validate_email. rewrite PyStr.truthy_strip, Hb. cbn [negb].
    destruct (PyStr.contains 64%N s) eqn:C; [|reflexivity].
    apply contains_In in C. contradiction. }
  rewrite E. do 12 apply has_error_ap_l. apply has_error_ap_r.
  apply has_error_field.
Qed.

Lemma C8_witness_mixed_case_email :
  CRM.validate_email PyStr.ascii_lower
                     (Some (PyStr.of_string " John.Doe@Enterprise.COM "))
  = Ok (Some (PyStr.of_string "john.doe@enterprise.com")).
Proof.
  apply (proj1 (C8_email_validation PyStr.ascii_lower PyStr.ascii_isdigit)).
  - vm_compute. reflexivity.
  - split; [|vm_compute; reflexivity].
    apply contains_In. vm_compute. reflexivity.
Defined.

(** ** Scores of the output contracts *)

(** C10: a [LeadScoreResponse] is constructed only with total_score and
    confidence in [0, 1], and a [CRMLeadData] only with lead_score and
    confidence in [0, 1]; the stored values are the supplied ones.  The
    scale differs from the 0-to-100 scale of [EnhancedLeadData]: a score of
    50 is accepted there and refused by both output contracts. *)
Theorem C10_output_scores_on_unit_scale :
  (forall (kw : LSR.kwargs) (m : LSR.t),
      LSR.init kw = Valid m ->
      PyFloat.between 0 (LSR.total_score m) 1 = true
      /\ PyFloat.between 0 (LSR.confidence m) 1 = true
      /\ LSR.arg_total_score kw = Some (LSR.total_score m)
      /\ LSR.arg_confidence kw = Some (LSR.confidence m))
  /\ (forall str_lower str_isdigit (kw : CRM.kwargs) (m : CRM.t),
         CRM.init str_lower str_isdigit kw = Valid m ->
         PyFloat.between 0 (CRM.lead_score m) 1 = true
         /\ PyFloat.between 0 (CRM.confidence m) 1 = true
         /\ CRM.arg_lead_score kw = Some (CRM.lead_score m)
         /\ CRM.arg_confidence kw = Some (CRM.confidence m))
  /\ (ELD.lead_score_field (Some 50%float) = Ok 50%float
      /\ required (float_range 0 1) (Some 50%float)
         = Err (NumberNotLeError (NFloat 1))).
Proof.
  split; [|split].
  - intros kw m H. unfold LSR.init in H. valid_inv H. simpl.
    apply required_ok in Hfield7, Hfield4.
    destruct Hfield7 as (t & -> & Ht), Hfield4 as (c & -> & Hc).
    apply float_range_ok in Ht, Hc.
    destruct Ht as [Ht ->], Hc as [Hc ->]. auto.
  - intros lo dg kw m H. unfold CRM.init in H. valid_inv H. simpl.
    apply required_ok in Hfield15, Hfield12.
    destruct Hfield15 as (t & -> & Ht), Hfield12 as (c & -> & Hc).
    apply float_range_ok in Ht, Hc.
    destruct Ht as [Ht ->], Hc as [Hc ->]. auto.
  - split; vm_compute; reflexivity.
Qed.

Definition example_response_args : LSR.kwargs :=
  LSR.Build_kwargs (Some 0.75%float) (Some Lead.HIGH)
                   (Some Lead.DEMO_REQUEST) (Some 0.82%float) (Some true)
                   (Some [(PyStr.of_string "intent_confidence", 0.9%float)])
                   (Some []) (Some [])
                   (Some (PyStr.of_string "2024-01-15T10:30:00Z")).

Definition example_response : LSR.t :=
  LSR.Build_t 0.75 Lead.HIGH Lead.DEMO_REQUEST 0.82 true
              [(PyStr.of_string "intent_confidence", 0.9%float)] [] []
              (PyStr.of_string "2024-01-15T10:30:00Z").

Lemma C10_witness_example_response :
  LSR.init example_response_args = Valid example_response
  /\ PyFloat.between 0 (LSR.total_score example_response) 1 = true
  /\ PyFloat.between 0 (LSR.confidence example_response) 1 = true.
Proof.
  assert (E : LSR.init example_response_args = Valid example_response)
    by (vm_compute; reflexivity).
  split; [exact E|].
  destruct (proj1 C10_output_scores_on_unit_scale _ _ E) as (H1 & H2 & _).
  split; assumption.
Defined.

(* ================================================================== *)
(** * Further properties of the lead models *)

Local Open Scope list_scope.

(** ** What [strip] removes *)

Lemma lstrip_decompose (s : PyStr.str) :
  exists pre, s = pre ++ PyStr.lstrip s /\ PyStr.all_space pre = true.
Proof.
  induction s as [|c r (pre & E & Hp)]; simpl.
  - exists []. auto.
  - destruct (PyStr.isspace c) eqn:Hc.
    + exists (c :: pre). simpl. rewrite Hc, Hp. split; [now f_equal|reflexivity].
    + exists []. auto.
Qed.

Lemma rstrip_decompose (s : PyStr.str) :
  exists post, s = PyStr.rstrip s ++ post /\ PyStr.all_space post = true.
Proof.
  destruct (lstrip_decompose (rev s)) as (pre & E & Hp).
  exists (rev pre). split.
  - unfold PyStr.rstrip. rewrite <- rev_app_distr, <- E.
    now rewrite rev_involutive.
  - now rewrite PyStr.all_space_rev.
Qed.

(** [strip] removes a whitespace prefix and a whitespace suffix, and nothing
    in between. *)
Lemma strip_decompose (s : PyStr.str) :
  exists pre post,
    s = pre ++ PyStr.strip s ++ post
    /\ PyStr.all_space pre = true /\ PyStr.all_space post = true.
Proof.
  destruct (lstrip_decompose s) as (pre & E & Hp).
  destruct (rstrip_decompose (PyStr.lstrip s)) as (post & E' & Hq).
  exists pre, post. unfold PyStr.strip. rewrite <- E'. auto.
Qed.

Lemma lstrip_fixed (t : PyStr.str) : PyStr.head_ok t -> PyStr.lstrip t = t.
Proof.
  destruct t as [|c r]; simpl; [reflexivity|]. now intros ->.
Qed.

(** A string with no whitespace at either end is left alone by [strip]. *)
Lemma strip_fixed (t : PyStr.str) :
  PyStr.head_ok t -> PyStr.head_ok (rev t) -> PyStr.strip t = t.
Proof.
  intros Hh Hl. unfold PyStr.strip, PyStr.rstrip.
  rewrite (lstrip_fixed t Hh), (lstrip_fixed (rev t) Hl).
  apply rev_involutive.
Qed.

Lemma strip_idempotent (s : PyStr.str) :
  PyStr.strip (PyStr.strip s) = PyStr.strip s.
Proof. apply strip_fixed; [apply PyStr.strip_head|apply PyStr.strip_last]. Qed.

Lemma strip_len (s : PyStr.str) : (PyStr.len (PyStr.strip s) <= PyStr.len s)%Z.
Proof.
  destruct (strip_decompose s) as (pre & post & E & _).
  unfold PyStr.len. rewrite E at 2. rewrite !length_app. lia.
Qed.

Lemma all_space_strip (s : PyStr.str) :
  PyStr.all_space (PyStr.strip s) = PyStr.all_space s.
Proof.
  destruct (strip_decompose s) as (pre & post & E & Hp & Hq).
  rewrite E at 2. unfold PyStr.all_space in *.
  rewrite !forallb_app, Hp, Hq. simpl. now rewrite andb_true_r.
Qed.

(** A character that is not whitespace survives [strip]. *)
Lemma strip_keeps (c : PyStr.char) (s : PyStr.str) :
  PyStr.isspace c = false -> In c s -> In c (PyStr.strip s).
Proof.
  intros Hc Hin. destruct (strip_decompose s) as (pre & post & E & Hp & Hq).
  rewrite E in Hin. unfold PyStr.all_space in *.
  rewrite forallb_forall in Hp, Hq.
  apply in_app_or in Hin. destruct Hin as [H|H].
  - specialize (Hp c H). congruence.
  - apply in_app_or in H. destruct H as [H|H]; [exact H|].
    specialize (Hq c H). congruence.
Qed.

Lemma filter_all_space (f : PyStr.char -> bool) (l : PyStr.str) :
  (forall c, PyStr.isspace c = true -> f c = false) ->
  PyStr.all_space l = true -> filter f l = [].
Proof.
  intros Hf. induction l as [|c r IH]; simpl; [reflexivity|].
  intros H. apply andb_true_iff in H. destruct H as [Hc Hr].
  rewrite (Hf c Hc). auto.
Qed.

(** Stripping removes no character of a class that holds no whitespace. *)
Lemma filter_strip (f : PyStr.char -> bool) (s : PyStr.str) :
  (forall c, PyStr.isspace c = true -> f c = false) ->
  filter f (PyStr.strip s) = filter f s.
Proof.
  intros Hf. destruct (strip_decompose s) as (pre & post & E & Hp & Hq).
  rewrite E at 2. rewrite !filter_app.
  rewrite (filter_all_space f pre Hf Hp), (filter_all_space f post Hf Hq).
  now rewrite app_nil_r.
Qed.

(** ** CRMLeadData: the phone number *)

Definition phone_error : error :=
  ValueError "Phone number must have at least 10 digits".

(** The characters of a phone number that [str.isdigit] classifies as
    digits. *)
Definition digits_of (str_isdigit : PyStr.char -> bool) (s : PyStr.str)
  : PyStr.str :=
  filter str_isdigit s.

Lemma validate_phone_ok str_isdigit (s : PyStr.str) (w : option PyStr.str) :
  PyStr.all_space s = false ->
  (CRM.validate_phone str_isdigit (Some s) = Ok w <->
   (10 <= PyStr.len (digits_of str_isdigit s))%Z
   /\ w = Some (PyStr.strip s)).
Proof.
  intros Hs. unfold CRM.validate_phone, digits_of.
  rewrite PyStr.truthy_strip, Hs. cbn [negb].
  destruct (Z.ltb_spec (PyStr.len (filter str_isdigit s)) 10) as [L|L].
  - split; [discriminate|]. intros [H _]. lia.
  - split; [intros H; injection H as <-; auto|]. intros [_ ->]. reflexivity.
Qed.

Lemma validate_phone_blank str_isdigit (s : PyStr.str) :
  PyStr.all_space s = true ->
  CRM.validate_phone str_isdigit (Some s) = Ok (Some s).
Proof.
  intros Hs. unfold CRM.validate_phone.
  now rewrite PyStr.truthy_strip, Hs.
Qed.

(** X1: a phone number with a non-whitespace character is accepted if and
    only if at least ten of its characters are digits; the value stored is
    the input stripped of surrounding whitespace, with its punctuation and
    inner spaces kept.  [None] and whitespace-only input are stored
    unchanged.  A constructed [CRMLeadData] holds the phone so validated,
    and a construction with too few digits reports the validator's error
    under [phone]. *)
Theorem X1_phone_validation
        (str_lower : PyStr.str -> PyStr.str)
        (str_isdigit : PyStr.char -> bool) :
  (forall (s : PyStr.str) (w : option PyStr.str),
      PyStr.all_space s = false ->
      (CRM.validate_phone str_isdigit (Some s) = Ok w <->
       (10 <= PyStr.len (digits_of str_isdigit s))%Z
       /\ w = Some (PyStr.strip s)))
  /\ CRM.validate_phone str_isdigit None = Ok None
  /\ (forall s : PyStr.str,
         PyStr.all_space s = true ->
         CRM.validate_phone str_isdigit (Some s) = Ok (Some s))
  /\ (forall (kw : CRM.kwargs) (m : CRM.t),
         CRM.init str_lower str_isdigit kw = Valid m ->
         CRM.validate_phone str_isdigit (CRM.arg_phone kw) = Ok (CRM.phone m))
  /\ (forall (kw : CRM.kwargs) (s : PyStr.str),
         CRM.arg_phone kw = Some s ->
         PyStr.all_space s = false ->
         (PyStr.len (digits_of str_isdigit s) < 10)%Z ->
         has_error "phone" phone_error (CRM.init str_lower str_isdigit kw)).
Proof.
  split; [exact (validate_phone_ok str_isdigit)|].
  split; [reflexivity|].
  split; [exact (validate_phone_blank str_isdigit)|].
  split.
  - intros kw m H. unfold CRM.init in H. valid_inv H. simpl. exact Hfield10.
  - intros kw s Hs Hb Hd. unfold CRM.init. rewrite Hs.
    assert (E : CRM.validate_phone str_isdigit (Some s) = Err phone_error).
    { unfold CRM.validate_phone. rewrite PyStr.truthy_strip, Hb. cbn [negb].
      unfold digits_of in Hd.
      destruct (Z.ltb_spec (PyStr.len (filter str_isdigit s)) 10) as [L|L];
        [reflexivity|lia]. }
    rewrite E. do 11 apply has_error_ap_l. apply has_error_ap_r.
    apply has_error_field.
Qed.

Lemma X1_witness_formatted_phone :
  CRM.validate_phone PyStr.ascii_isdigit
                     (Some (PyStr.of_string " +1 (555) 123-4567 "))
  = Ok (Some (PyStr.of_string "+1 (555) 123-4567")).
Proof.
  apply (proj1 (X1_phone_validation PyStr.ascii_lower PyStr.ascii_isdigit)).
  - vm_compute. reflexivity.
  - split; vm_compute; [discriminate|reflexivity].
Defined.

(** X2: validating an accepted phone number again accepts it and returns it
    unchanged, and stripping loses none of its digits, given that no
    whitespace character is a digit. *)
Theorem X2_phone_revalidation
        (str_isdigit : PyStr.char -> bool) (v w : option PyStr.str) :
  (forall c, PyStr.isspace c = true -> str_isdigit c = false) ->
  CRM.validate_phone str_isdigit v = Ok w ->
  CRM.validate_phone str_isdigit w = Ok w
  /\ option_map (digits_of str_isdigit) w
     = option_map (digits_of str_isdigit) v.
Proof.
  intros Hd H. destruct v as [s|].
  - destruct (PyStr.all_space s) eqn:Hs.
    + rewrite (validate_phone_blank str_isdigit s Hs) in H.
      injection H as <-. split; [|reflexivity].
      apply validate_phone_blank. exact Hs.
    + apply (validate_phone_ok str_isdigit s w Hs) in H.
      destruct H as [L ->]. split.
      * apply validate_phone_ok.
        -- now rewrite all_space_strip.
        -- unfold digits_of in *. rewrite (filter_strip str_isdigit s Hd).
           now rewrite strip_idempotent.
      * cbn [option_map]. unfold digits_of.
        now rewrite (filter_strip str_isdigit s Hd).
  - simpl in H. injection H as <-. split; reflexivity.
Qed.

Lemma ascii_digit_not_space (c : PyStr.char) :
  PyStr.isspace c = true -> PyStr.ascii_isdigit c = false.
Proof.
  unfold PyStr.isspace, PyStr.ascii_isdigit. intros H.
  destruct (N.leb_spec 48 c) as [L|L]; [|reflexivity].
  destruct (N.leb_spec c 57) as [U|U]; [|reflexivity].
  exfalso. revert H.
  repeat match goal with
         | |- context [(?a <=? ?b)%N] => destruct (N.leb_spec a b); try lia
         | |- context [(?a =? ?b)%N] => destruct (N.eqb_spec a b); try lia
         end; simpl; discriminate.
Qed.

Lemma X2_witness_formatted_phone :
  CRM.validate_phone PyStr.ascii_isdigit
                     (Some (PyStr.of_string "+1 (555) 123-4567"))
  = Ok (Some (PyStr.of_string "+1 (555) 123-4567"))
  /\ option_map (digits_of PyStr.ascii_isdigit)
                (Some (PyStr.of_string "+1 (555) 123-4567"))
     = option_map (digits_of PyStr.ascii_isdigit)
                  (Some (PyStr.of_string " +1 (555) 123-4567 ")).
Proof.
  apply (X2_phone_revalidation PyStr.ascii_isdigit
           (Some (PyStr.of_string " +1 (555) 123-4567 "))
           (Some (PyStr.of_string "+1 (555) 123-4567"))).
  - exact ascii_digit_not_space.
  - vm_compute. reflexivity.
Defined.

(** ** LeadAnalysisRequest: what is stored of a message *)

Lemma message_stored_len (v : PyStr.str) :
  PyStr.all_space v = false ->
  (1 <= PyStr.len (PyStr.strip v) <= PyStr.len v)%Z.
Proof.
  intros Hs. split; [|apply strip_len].
  destruct (PyStr.strip v) as [|c r] eqn:E.
  - apply PyStr.strip_nil in E. congruence.
  - unfold PyStr.len. cbn [List.length]. lia.
Qed.

(** X3: the stored message is the supplied one without a whitespace prefix
    and a whitespace suffix: nothing inside the message is removed or
    changed, and the stored message has between 1 and 2000 characters and
    is never longer than the input. *)
Theorem X3_message_keeps_its_content (v w : PyStr.str) :
  LAR.message_field v = Ok w ->
  (exists pre post,
      v = pre ++ w ++ post
      /\ PyStr.all_space pre = true /\ PyStr.all_space post = true)
  /\ (1 <= PyStr.len w <= PyStr.len v)%Z
  /\ (PyStr.len v <= 2000)%Z.
Proof.
  intros H. apply message_field_ok in H. destruct H as (L & Hs & ->).
  split; [apply strip_decompose|].
  split; [apply message_stored_len; exact Hs|lia].
Qed.

Lemma X3_witness_padded_message :
  (exists pre post,
      PyStr.of_string "  need a demo "
      = pre ++ PyStr.of_string "need a demo" ++ post
      /\ PyStr.all_space pre = true /\ PyStr.all_space post = true)
  /\ (1 <= PyStr.len (PyStr.of_string "need a demo")
      <= PyStr.len (PyStr.of_string "  need a demo "))%Z
  /\ (PyStr.len (PyStr.of_string "  need a demo ") <= 2000)%Z.
Proof.
  apply (X3_message_keeps_its_content (PyStr.of_string "  need a demo ")
           (PyStr.of_string "need a demo")).
  vm_compute. reflexivity.
Defined.

(** X4: an accepted message is a fixed point of the validation: validating
    the stored message again accepts it and stores the same string. *)
Theorem X4_message_revalidation (v w : PyStr.str) :
  LAR.message_field v = Ok w -> LAR.message_field w = Ok w.
Proof.
  intros H. apply message_field_ok in H. destruct H as (U & Hs & ->).
  pose proof (message_stored_len v Hs) as L.
  apply message_field_ok. split; [lia|]. split.
  - now rewrite all_space_strip.
  - symmetry. apply strip_idempotent.
Qed.

Lemma X4_witness_padded_message :
  LAR.message_field (PyStr.of_string "need a demo")
  = Ok (PyStr.of_string "need a demo").
Proof.
  apply (X4_message_revalidation (PyStr.of_string "  need a demo ")).
  vm_compute. reflexivity.
Defined.

(** ** CRMLeadData: what is stored of an email *)

Lemma at_sign_not_space : PyStr.isspace at_sign = false.
Proof. reflexivity. Qed.

(** X5: when a non-blank email is accepted, the string handed to
    [str.lower] is the input without its surrounding whitespace: it still
    contains ['@'], is not empty, and neither starts nor ends with
    whitespace. *)
Theorem X5_email_lowercases_the_stripped_address
        (str_lower : PyStr.str -> PyStr.str)
        (s : PyStr.str) (w : option PyStr.str) :
  PyStr.all_space s = false ->
  CRM.validate_email str_lower (Some s) = Ok w ->
  exists t,
    w = Some (str_lower t)
    /\ (exists pre post,
           s = pre ++ t ++ post
           /\ PyStr.all_space pre = true /\ PyStr.all_space post = true)
    /\ In at_sign t
    /\ t <> [] /\ PyStr.head_ok t /\ PyStr.head_ok (rev t).
Proof.
  intros Hs H. apply (validate_email_ok str_lower s w Hs) in H.
  destruct H as [Hat ->]. exists (PyStr.strip s).
  split; [reflexivity|]. split; [apply strip_decompose|].
  split; [apply strip_keeps; [exact at_sign_not_space|exact Hat]|].
  split; [|split; [apply PyStr.strip_head|apply PyStr.strip_last]].
  intros E. apply PyStr.strip_nil in E. congruence.
Qed.

Lemma X5_witness_mixed_case_email :
  exists t,
    Some (PyStr.of_string "john.doe@enterprise.com")
    = Some (PyStr.ascii_lower t)
    /\ (exists pre post,
           PyStr.of_string " John.Doe@Enterprise.COM " = pre ++ t ++ post
           /\ PyStr.all_space pre = true /\ PyStr.all_space post = true)
    /\ In at_sign t
    /\ t <> [] /\ PyStr.head_ok t /\ PyStr.head_ok (rev t).
Proof.
  apply (X5_email_lowercases_the_stripped_address PyStr.ascii_lower
           (PyStr.of_string " John.Doe@Enterprise.COM ")).
  - vm_compute. reflexivity.
  - vm_compute. reflexivity.
Defined.

(** ** ConversationContextRequest: the whole constructor *)

Lemma required_int_ge lo (arg : option Z) (w : Z) :
  required (int_ge lo) arg = Ok w <-> arg = Some w /\ (lo <= w)%Z.
Proof.
  rewrite required_ok. split.
  - intros (v & -> & H). apply int_ge_ok in H. destruct H as [L ->]. auto.
  - intros [-> L]. exists w. split; [reflexivity|].
    apply int_ge_ok. auto.
Qed.

Lemma required_float_range lo hi (arg : option float) (w : float) :
  required (float_range lo hi) arg = Ok w <->
  arg = Some w /\ PyFloat.between lo w hi = true.
Proof.
  rewrite required_ok. split.
  - intros (v & -> & H). apply float_range_ok in H.
    destruct H as [L ->]. auto.
  - intros [-> L]. exists w. split; [reflexivity|].
    apply float_range_ok. auto.
Qed.

Lemma required_any {A} (arg : option A) (w : A) :
  required any arg = Ok w <-> arg = Some w.
Proof.
  rewrite required_ok. unfold any. split.
  - intros (v & -> & H). congruence.
  - intros ->. now exists w.
Qed.

Lemma defaulted_any_ok {A} (d : A) (arg : option A) (w : A) :
  defaulted d any arg = Ok w <-> w = supplied_or d arg.
Proof.
  rewrite defaulted_any. unfold supplied_or. split; congruence.
Qed.

Lemma defaulted_history (arg : option (list float)) (w : list float) :
  defaulted [] CCR.validate_sentiment_history arg = Ok w <->
  when_supplied (fun l => forall x, In x l -> sentiment_in_range x = true) arg
  /\ w = supplied_or [] arg.
Proof.
  destruct arg as [l|]; simpl.
  - rewrite validate_sentiment_history_ok, forallb_forall. tauto.
  - split; [intros H; injection H as <-; auto|]. intros [_ ->]. reflexivity.
Qed.

(** X6: a [ConversationContextRequest] is constructed if and only if
    message_count and conversation_length are supplied and not negative,
    the engagement score, when supplied, lies in [0, 1], and every element
    of the sentiment history, when supplied, lies in [-1, 1]; the record
    holds the arguments as supplied, 0.5 for a missing engagement score and
    empty lists for a missing history or missing intents. *)
Theorem X6_conversation_context_construction (kw : CCR.kwargs) (m : CCR.t) :
  CCR.init kw = Valid m <->
  (CCR.arg_message_count kw = Some (CCR.message_count m)
   /\ (0 <= CCR.message_count m)%Z)
  /\ (CCR.arg_conversation_length kw = Some (CCR.conversation_length m)
      /\ (0 <= CCR.conversation_length m)%Z)
  /\ (when_supplied (fun v => PyFloat.between 0 v 1 = true)
                    (CCR.arg_engagement_score kw)
      /\ CCR.engagement_score m
         = supplied_or 0.5%float (CCR.arg_engagement_score kw))
  /\ (when_supplied (fun l => forall x, In x l -> sentiment_in_range x = true)
                    (CCR.arg_sentiment_history kw)
      /\ CCR.sentiment_history m
         = supplied_or [] (CCR.arg_sentiment_history kw))
  /\ CCR.previous_intents m = supplied_or [] (CCR.arg_previous_intents kw).
Proof.
  unfold CCR.init. split.
  - intros H. valid_inv H. cbn [CCR.message_count CCR.conversation_length
      CCR.engagement_score CCR.sentiment_history CCR.previous_intents].
    apply required_int_ge in Hfield3, Hfield2.
    apply defaulted_float_range in Hfield1.
    apply defaulted_history in Hfield0.
    apply defaulted_any_ok in Hfield. tauto.
  - destruct m as [mc cl es sh pi].
    cbn [CCR.message_count CCR.conversation_length
      CCR.engagement_score CCR.sentiment_history CCR.previous_intents].
    intros (H1 & H2 & H3 & H4 & H5).
    apply required_int_ge in H1, H2.
    apply defaulted_float_range in H3.
    apply defaulted_history in H4.
    apply defaulted_any_ok in H5.
    rewrite H1, H2, H3, H4, H5. reflexivity.
Qed.

Lemma X6_witness_context :
  CCR.init (context_args [0.2; -1; 1]%float)
  = Valid (CCR.Build_t 4 120 0.5 [0.2; -1; 1]%float []).
Proof.
  apply (proj2 (X6_conversation_context_construction
                  (context_args [0.2; -1; 1]%float)
                  (CCR.Build_t 4 120 0.5 [0.2; -1; 1]%float []))).
  cbn. repeat split; try lia.
  intros x [<-|[<-|[<-|[]]]]; vm_compute; reflexivity.
Defined.

(** ** EnhancedLeadData: errors, re-validation and order of records *)

Definition missing (name : string) {A} (arg : option A) : errors :=
  match arg with Some _ => [] | None => [(name, MissingError)] end.

(** The errors a construction of [EnhancedLeadData] reports, in the order
    of the fields. *)
Definition lead_errors (kw : ELD.kwargs) : errors :=
  missing "conversation_id" (ELD.arg_conversation_id kw)
  ++ missing "chatbot_id" (ELD.arg_chatbot_id kw)
  ++ match ELD.lead_score_field (ELD.arg_lead_score kw) with
     | Ok _ => []
     | Err e => [("lead_score", e)]
     end.

(** X7: the construction of an [EnhancedLeadData] fails only on a missing
    conversation_id, a missing chatbot_id or an out-of-range lead_score; it
    reports all of these at once, in this order, and nothing else; it
    succeeds exactly when there is none of them.  The clock is read whether
    or not the construction succeeds. *)
Theorem X7_lead_construction_errors
        (clk : Datetime.clock) (kw : ELD.kwargs) (calls : nat) :
  (is_valid (fst (ELD.init clk kw calls)) = true <-> lead_errors kw = [])
  /\ (forall es, fst (ELD.init clk kw calls) = Invalid es ->
                 es = lead_errors kw)
  /\ snd (ELD.init clk kw calls) = S (calls + readings_before_update kw).
Proof.
  unfold ELD.init, lead_errors, readings_before_update,
    ELD.created_at_field, ELD.updated_at_field, ELD.set_updated_at,
    Datetime.utcnow.
  rewrite !defaulted_any.
  destruct (ELD.arg_created_at kw) as [c|], (ELD.arg_updated_at kw) as [u|];
    cbv beta iota zeta; cbn [fst snd];
    (split; [|split; [|f_equal; lia]]);
    destruct (ELD.arg_conversation_id kw) as [cid|],
             (ELD.arg_chatbot_id kw) as [bid|],
             (ELD.lead_score_field (ELD.arg_lead_score kw)) as [w|e];
    cbn; try (split; [reflexivity|reflexivity]);
    try (split; discriminate);
    try (intros es H; injection H as <-; reflexivity);
    try (intros es H; discriminate H).
Qed.

Lemma X7_witness_all_errors :
  fst (ELD.init ticking_clock
         (ELD.Build_kwargs None None None None None None None
                           (Some (-1)%float)
                           None None None None None None None None None None)
         0)
  = Invalid [("conversation_id", MissingError);
             ("chatbot_id", MissingError);
             ("lead_score", NumberNotGeError (NFloat 0))].
Proof.
  destruct (ELD.init ticking_clock
         (ELD.Build_kwargs None None None None None None None
                           (Some (-1)%float)
                           None None None None None None None None None None)
         0) as [[m|es] n] eqn:E.
  - vm_compute in E. discriminate E.
  - cbn [fst].
    rewrite (proj1 (proj2 (X7_lead_construction_errors ticking_clock _ 0%nat))
               es (f_equal fst E)).
    vm_compute. reflexivity.
Defined.

(** The keyword arguments that hand a record's own fields back to the
    constructor. *)
Definition fields_of (m : ELD.t) : ELD.kwargs :=
  ELD.Build_kwargs (ELD.id m) (Some (ELD.conversation_id m))
                   (Some (ELD.chatbot_id m)) (Some (ELD.contact_info m))
                   (Some (ELD.qualification_data m))
                   (Some (ELD.conversation_metrics m))
                   (Some (ELD.collection_strategy m))
                   (Some (ELD.lead_score m)) (Some (ELD.priority m))
                   (Some (ELD.status m)) (Some (ELD.qualification_stage m))
                   (ELD.lead_analysis m) (Some (ELD.created_at m))
                   (Some (ELD.updated_at m)) (ELD.last_interaction m)
                   (Some (ELD.source m)) (Some (ELD.tags m))
                   (Some (ELD.notes m)).

(** The record [m] with another [updated_at]. *)
Definition touched (m : ELD.t) (now : Datetime.datetime) : ELD.t :=
  ELD.Build_t (ELD.id m) (ELD.conversation_id m) (ELD.chatbot_id m)
              (ELD.contact_info m) (ELD.qualification_data m)
              (ELD.conversation_metrics m) (ELD.collection_strategy m)
              (ELD.lead_score m) (ELD.priority m) (ELD.status m)
              (ELD.qualification_stage m) (ELD.lead_analysis m)
              (ELD.created_at m) now (ELD.last_interaction m)
              (ELD.source m) (ELD.tags m) (ELD.notes m).

Lemma stored_lead_score_fixed (arg : option float) (w : float) :
  ELD.lead_score_field arg = Ok w -> ELD.lead_score_field (Some w) = Ok w.
Proof.
  intros H. apply lead_score_field_ok. destruct arg as [v|].
  - apply lead_score_field_ok in H. destruct H as [_ ->]. split.
    + apply validate_lead_score_between.
    + symmetry. apply (PyFloat.clamp_idempotent 0 100 v).
  - simpl in H. injection H as <-. split; reflexivity.
Qed.

(** X8: constructing a record again from the fields of a constructed record
    always succeeds and gives the same record with a fresh [updated_at]: the
    lead score is not moved by a second validation, [created_at] is kept,
    and one clock reading is consumed. *)
Theorem X8_lead_revalidation
        (clk : Datetime.clock) (kw : ELD.kwargs) (calls calls' : nat)
        (m : ELD.t) :
  ELD.init clk kw calls = (Valid m, calls') ->
  forall n : nat,
    ELD.init clk (fields_of m) n = (Valid (touched m (clk n)), S n).
Proof.
  intros H n.
  assert (L : ELD.lead_score_field (Some (ELD.lead_score m))
              = Ok (ELD.lead_score m)).
  { apply (stored_lead_score_fixed (ELD.arg_lead_score kw)).
    apply (init_lead_score clk kw calls). now rewrite H. }
  unfold ELD.init, fields_of, touched, ELD.created_at_field,
    ELD.updated_at_field, ELD.set_updated_at, Datetime.utcnow.
  cbn [ELD.arg_created_at ELD.arg_updated_at ELD.arg_lead_score
       ELD.arg_id ELD.arg_conversation_id ELD.arg_chatbot_id
       ELD.arg_contact_info ELD.arg_qualification_data
       ELD.arg_conversation_metrics ELD.arg_collection_strategy
       ELD.arg_priority ELD.arg_status ELD.arg_qualification_stage
       ELD.arg_lead_analysis ELD.arg_last_interaction ELD.arg_source
       ELD.arg_tags ELD.arg_notes].
  cbv beta iota zeta. rewrite L. reflexivity.
Qed.

Lemma X8_witness_minimal_lead :
  ELD.init ticking_clock (fields_of minimal_lead) 7%nat
  = (Valid (touched minimal_lead (ticking_clock 7%nat)), 8%nat).
Proof.
  apply (X8_lead_revalidation ticking_clock
           (ELD.minimal_args conv_1 bot_1) 0%nat 3%nat minimal_lead).
  vm_compute. reflexivity.
Defined.

(** X9: with a clock that never goes back, records come out in the order
    of their construction: a record constructed after another one has an
    [updated_at] that is not earlier, and so has its [created_at] when both
    were left to the clock. *)
Theorem X9_later_record_is_not_older
        (clk : Datetime.clock) (kw1 kw2 : ELD.kwargs)
        (n0 n1 n2 n3 : nat) (m1 m2 : ELD.t) :
  Datetime.monotone clk ->
  ELD.init clk kw1 n0 = (Valid m1, n1) ->
  (n1 <= n2)%nat ->
  ELD.init clk kw2 n2 = (Valid m2, n3) ->
  (ELD.updated_at m1 <= ELD.updated_at m2)%Z
  /\ (ELD.arg_created_at kw1 = None -> ELD.arg_created_at kw2 = None ->
      (ELD.created_at m1 <= ELD.created_at m2)%Z).
Proof.
  intros Hm H1 Hle H2.
  apply init_timestamps in H1, H2.
  destruct H1 as (Hc1 & Hu1 & ->), H2 as (Hc2 & Hu2 & ->).
  split.
  - rewrite Hu1, Hu2. apply Datetime.monotone_le; [exact Hm|lia].
  - intros E1 E2. rewrite Hc1, Hc2, E1, E2. simpl.
    apply Datetime.monotone_le; [exact Hm|lia].
Qed.

Lemma X9_witness_two_leads :
  (ELD.updated_at minimal_lead
   <= ELD.updated_at (touched minimal_lead (ticking_clock 7%nat)))%Z
  /\ (ELD.arg_created_at (ELD.minimal_args conv_1 bot_1) = None ->
      ELD.arg_created_at (fields_of minimal_lead) = None ->
      (ELD.created_at minimal_lead
       <= ELD.created_at (touched minimal_lead (ticking_clock 7%nat)))%Z).
Proof.
  apply (X9_later_record_is_not_older ticking_clock
           (ELD.minimal_args conv_1 bot_1) (fields_of minimal_lead)
           0%nat 3%nat 7%nat 8%nat minimal_lead (touched minimal_lead (ticking_clock 7%nat))).
  - exact ticking_clock_monotone.
  - vm_compute. reflexivity.
  - lia.
  - vm_compute. reflexivity.
Defined.

(** ** LeadScoreResponse: the whole constructor *)

(** The argument list that supplies every field of a response. *)
Definition response_args_of (m : LSR.t) : LSR.kwargs :=
  LSR.Build_kwargs (Some (LSR.total_score m)) (Some (LSR.priority m))
                   (Some (LSR.lead_type m)) (Some (LSR.confidence m))
                   (Some (LSR.should_qualify m)) (Some (LSR.factors m))
                   (Some (LSR.extracted_data m)) (Some (LSR.crm_mapping m))
                   (Some (LSR.analyzed_at m)).

Tactic Notation "missing_field" integer(n) :=
  let H := fresh "H" in
  intros H; unfold LSR.init; rewrite H; cbn [required];
  do n apply has_error_ap_l;
  first [apply has_error_ap_r; apply has_error_field | apply has_error_field].

(** X10: a [LeadScoreResponse] has no optional field: it is constructed
    exactly from an argument list that supplies all nine fields with
    total_score and confidence in [0, 1], and it stores each argument as
    given (the factors map is not constrained).  Every argument left out is
    reported as missing under its own name, whatever else is wrong. *)
Theorem X10_score_response_construction (kw : LSR.kwargs) :
  (forall m : LSR.t,
      LSR.init kw = Valid m <->
      kw = response_args_of m
      /\ PyFloat.between 0 (LSR.total_score m) 1 = true
      /\ PyFloat.between 0 (LSR.confidence m) 1 = true)
  /\ (LSR.arg_total_score kw = None ->
      has_error "total_score" MissingError (LSR.init kw))
  /\ (LSR.arg_priority kw = None ->
      has_error "priority" MissingError (LSR.init kw))
  /\ (LSR.arg_lead_type kw = None ->
      has_error "lead_type" MissingError (LSR.init kw))
  /\ (LSR.arg_confidence kw = None ->
      has_error "confidence" MissingError (LSR.init kw))
  /\ (LSR.arg_should_qualify kw = None ->
      has_error "should_qualify" MissingError (LSR.init kw))
  /\ (LSR.arg_factors kw = None ->
      has_error "factors" MissingError (LSR.init kw))
  /\ (LSR.arg_extracted_data kw = None ->
      has_error "extracted_data" MissingError (LSR.init kw))
  /\ (LSR.arg_crm_mapping kw = None ->
      has_error "crm_mapping" MissingError (LSR.init kw))
  /\ (LSR.arg_analyzed_at kw = None ->
      has_error "analyzed_at" MissingError (LSR.init kw)).
Proof.
  split.
  { intros m. split.
    - intros H. unfold LSR.init in H. valid_inv H.
      apply required_float_range in Hfield7, Hfield4.
      apply required_any in Hfield6, Hfield5, Hfield3, Hfield2, Hfield1,
        Hfield0, Hfield.
      destruct Hfield7 as [E7 R7], Hfield4 as [E4 R4].
      destruct kw. simpl in *. subst. auto.
    - intros (-> & R1 & R2). destruct m as [ts p lt c sq f ed cm at'].
      simpl in *. unfold LSR.init, response_args_of. simpl.
      rewrite (proj2 (float_range_ok 0 1 ts ts) (conj R1 eq_refl)).
      rewrite (proj2 (float_range_ok 0 1 c c) (conj R2 eq_refl)).
      reflexivity. }
  split; [missing_field 8|].
  split; [missing_field 7|].
  split; [missing_field 6|].
  split; [missing_field 5|].
  split; [missing_field 4|].
  split; [missing_field 3|].
  split; [missing_field 2|].
  split; [missing_field 1|].
  missing_field 0.
Qed.

Lemma X10_witness_example_response :
  LSR.init (response_args_of example_response) = Valid example_response.
Proof.
  apply (proj1 (X10_score_response_construction
                  (response_args_of example_response))).
  split; [reflexivity|]. split; vm_compute; reflexivity.
Defined.

(** ** CRMLeadData: the original message and the whole constructor *)

Definition original_message_field (arg : option PyStr.str)
  : result PyStr.str :=
  required (str_length None (Some 500%Z)) arg.

Lemma original_message_ok (arg : option PyStr.str) (w : PyStr.str) :
  original_message_field arg = Ok w <->
  arg = Some w /\ (PyStr.len w <= 500)%Z.
Proof.
  unfold original_message_field. rewrite required_ok. split.
  - intros (v & -> & H). apply str_max_length_ok in H.
    destruct H as [L ->]. auto.
  - intros [-> L]. exists w. split; [reflexivity|].
    apply str_max_length_ok. auto.
Qed.

(** X11: the two message limits do not agree: a message without surrounding
    whitespace that has more than 500 and at most 2000 characters is
    accepted, unchanged, by [LeadAnalysisRequest], and refused as
    [CRMLeadData.original_message]: the construction of the CRM record then
    fails with the length error on that field. *)
Theorem X11_analysed_message_may_exceed_crm_limit (w : PyStr.str) :
  PyStr.head_ok w -> PyStr.head_ok (rev w) ->
  (500 < PyStr.len w <= 2000)%Z ->
  LAR.message_field w = Ok w
  /\ original_message_field (Some w) = Err (AnyStrMaxLengthError 500)
  /\ (forall str_lower str_isdigit (kw : CRM.kwargs),
         CRM.arg_original_message kw = Some w ->
         has_error "original_message" (AnyStrMaxLengthError 500)
                   (CRM.init str_lower str_isdigit kw)).
Proof.
  intros Hh Hl L.
  assert (E : str_length None (Some 500%Z) w = Err (AnyStrMaxLengthError 500)).
  { unfold str_length.
    destruct (Z.ltb_spec 500 (PyStr.len w)) as [_|U]; [reflexivity|lia]. }
  split; [|split].
  - apply message_field_ok. split; [lia|]. split.
    + destruct w as [|c r]; [unfold PyStr.len in L; simpl in L; lia|].
      simpl in Hh. simpl. now rewrite Hh.
    + symmetry. apply strip_fixed; assumption.
  - exact E.
  - intros lo dg kw Hw. unfold CRM.init. rewrite Hw. cbn [required].
    rewrite E.
    do 8 apply has_error_ap_l. apply has_error_ap_r. apply has_error_field.
Qed.

Definition long_message : PyStr.str := repeat 97%N 600.

Definition crm_args (message : PyStr.str) : CRM.kwargs :=
  CRM.Build_kwargs None (Some 0.75%float) (Some Lead.HIGH)
                   (Some Lead.DEMO_REQUEST) (Some 0.82%float)
                   (Some (PyStr.of_string "john.doe@enterprise.com"))
                   None None None (Some message) None
                   (Some (PyStr.of_string "2024-01-15T10:30:00Z"))
                   (Some true) None None (Some [])
                   (Some conv_1) None.

Lemma X11_witness_long_message :
  LAR.message_field long_message = Ok long_message
  /\ original_message_field (Some long_message)
     = Err (AnyStrMaxLengthError 500)
  /\ (forall str_lower str_isdigit (kw : CRM.kwargs),
         CRM.arg_original_message kw = Some long_message ->
         has_error "original_message" (AnyStrMaxLengthError 500)
                   (CRM.init str_lower str_isdigit kw)).
Proof.
  apply (X11_analysed_message_may_exceed_crm_limit long_message).
  - vm_compute. reflexivity.
  - vm_compute. reflexivity.
  - vm_compute. split; [reflexivity|discriminate].
Defined.

(** What a successful construction of a [CRMLeadData] says of the arguments
    and of the record. *)
Definition crm_constructed (str_lower : PyStr.str -> PyStr.str)
           (str_isdigit : PyStr.char -> bool)
           (kw : CRM.kwargs) (m : CRM.t) : Prop :=
  CRM.lead_source m
  = supplied_or (PyStr.of_string "chatbot") (CRM.arg_lead_source kw)
  /\ (CRM.arg_lead_score kw = Some (CRM.lead_score m)
      /\ PyFloat.between 0 (CRM.lead_score m) 1 = true)
  /\ CRM.arg_lead_priority kw = Some (CRM.lead_priority m)
  /\ CRM.arg_lead_type kw = Some (CRM.lead_type m)
  /\ (CRM.arg_confidence kw = Some (CRM.confidence m)
      /\ PyFloat.between 0 (CRM.confidence m) 1 = true)
  /\ CRM.validate_email str_lower (CRM.arg_email kw) = Ok (CRM.email m)
  /\ CRM.validate_phone str_isdigit (CRM.arg_phone kw) = Ok (CRM.phone m)
  /\ CRM.name m = CRM.arg_name kw
  /\ CRM.company m = CRM.arg_company kw
  /\ (CRM.arg_original_message kw = Some (CRM.original_message m)
      /\ (PyStr.len (CRM.original_message m) <= 500)%Z)
  /\ CRM.follow_up_action m = CRM.arg_follow_up_action kw
  /\ CRM.arg_qualification_date kw = Some (CRM.qualification_date m)
  /\ CRM.demo_requested m = supplied_or false (CRM.arg_demo_requested kw)
  /\ CRM.enterprise_inquiry m
     = supplied_or false (CRM.arg_enterprise_inquiry kw)
  /\ CRM.bulk_order_inquiry m
     = supplied_or false (CRM.arg_bulk_order_inquiry kw)
  /\ CRM.arg_scoring_factors kw = Some (CRM.scoring_factors m)
  /\ CRM.arg_conversation_id kw = Some (CRM.conversation_id m)
  /\ CRM.chatbot_id m = CRM.arg_chatbot_id kw.

(** X12: a [CRMLeadData] is constructed if and only if the seven required
    arguments without constraint are supplied, lead_score and confidence
    are supplied in [0, 1], original_message is supplied with at most 500
    characters, and the email and the phone pass their validators.  The
    record holds the validated email and phone, the other arguments as
    given, ["chatbot"] for a missing lead_source and [False] for each
    missing flag; the flags are not derived from lead_type. *)
Theorem X12_crm_lead_construction
        (str_lower : PyStr.str -> PyStr.str)
        (str_isdigit : PyStr.char -> bool)
        (kw : CRM.kwargs) (m : CRM.t) :
  CRM.init str_lower str_isdigit kw = Valid m <->
  crm_constructed str_lower str_isdigit kw m.
Proof.
  unfold crm_constructed, CRM.init. split.
  - intros H. valid_inv H.
    cbn [CRM.lead_source CRM.lead_score CRM.lead_priority CRM.lead_type
         CRM.confidence CRM.email CRM.phone CRM.name CRM.company
         CRM.original_message CRM.follow_up_action CRM.qualification_date
         CRM.demo_requested CRM.enterprise_inquiry CRM.bulk_order_inquiry
         CRM.scoring_factors CRM.conversation_id CRM.chatbot_id].
    apply defaulted_any_ok in Hfield16, Hfield4, Hfield3, Hfield2.
    apply required_float_range in Hfield15, Hfield12.
    apply required_any in Hfield14, Hfield13, Hfield5, Hfield1, Hfield0.
    apply (proj1 (any_ok _ _)) in Hfield9, Hfield8, Hfield6, Hfield.
    apply (original_message_ok (CRM.arg_original_message kw)) in Hfield7.
    repeat split; try assumption; try tauto.
  - destruct m as [ls sc pr ty co em ph na cp om fu qd dr ei bo sf ci cb].
    cbn [CRM.lead_source CRM.lead_score CRM.lead_priority CRM.lead_type
         CRM.confidence CRM.email CRM.phone CRM.name CRM.company
         CRM.original_message CRM.follow_up_action CRM.qualification_date
         CRM.demo_requested CRM.enterprise_inquiry CRM.bulk_order_inquiry
         CRM.scoring_factors CRM.conversation_id CRM.chatbot_id].
    intros (H1 & H2 & H3 & H4 & H5 & H6 & H7 & H8 & H9 & H10 & H11 & H12
            & H13 & H14 & H15 & H16 & H17 & H18).
    apply defaulted_any_ok in H1, H13, H14, H15.
    apply required_float_range in H2, H5.
    apply required_any in H3, H4, H12, H16, H17.
    apply original_message_ok in H10. unfold original_message_field in H10.
    rewrite H1, H2, H3, H4, H5, H6, H7, H10, H12, H13, H14, H15, H16, H17.
    unfold any. rewrite <- H8, <- H9, <- H11, <- H18. reflexivity.
Qed.

Lemma X12_witness_example_crm_lead :
  exists m,
    CRM.init PyStr.ascii_lower PyStr.ascii_isdigit
             (crm_args (PyStr.of_string "I want a demo")) = Valid m
    /\ crm_constructed PyStr.ascii_lower PyStr.ascii_isdigit
                       (crm_args (PyStr.of_string "I want a demo")) m.
Proof.
  eexists. split; [vm_compute; reflexivity|].
  apply (proj1 (X12_crm_lead_construction PyStr.ascii_lower
                  PyStr.ascii_isdigit _ _)).
  vm_compute. reflexivity.
Defined.

(** ** QualificationQuestion, LeadAnalysis and LeadQualificationStats *)

Lemma int_range_ok (lo hi v w : Z) :
  int_range lo hi v = Ok w <-> (lo <= v <= hi)%Z /\ w = v.
Proof.
  unfold int_range, int_ge, bind.
  destruct (Z.leb_spec lo v) as [L|L].
  - destruct (Z.leb_spec v hi) as [U|U].
    + split; [intros H; injection H as <-; split; [lia|reflexivity]|].
      intros [_ ->]. reflexivity.
    + split; [discriminate|]. intros [H _]. lia.
  - split; [discriminate|]. intros [H _]. lia.
Qed.

Lemma defaulted_int_range lo hi d arg w :
  defaulted d (int_range lo hi) arg = Ok w <->
  when_supplied (fun v => (lo <= v <= hi)%Z) arg /\ w = supplied_or d arg.
Proof.
  destruct arg as [v|]; simpl.
  - apply int_range_ok.
  - split; [intros H; injection H as <-; auto | intros [_ ->]; reflexivity].
Qed.

Module QQM := QualificationQuestionModel.
Module LAM := LeadAnalysisModel.
Module LQS := LeadQualificationStats.

(** X13: a [QualificationQuestion] is constructed if and only if question,
    category and context are supplied and the priority, when supplied, lies
    between 1 and 5; a missing priority is stored as 1, missing follow-up
    questions as the empty list, and the category is kept as given (it is
    not checked against the BANT names). *)
Theorem X13_qualification_question_construction
        (kw : QQM.kwargs) (q : EnhancedLead.QualificationQuestion) :
  QQM.init kw = Valid q <->
  QQM.arg_question kw = Some (EnhancedLead.question q)
  /\ QQM.arg_category kw = Some (EnhancedLead.category q)
  /\ (when_supplied (fun p => (1 <= p <= 5)%Z) (QQM.arg_priority kw)
      /\ EnhancedLead.question_priority q
         = supplied_or 1%Z (QQM.arg_priority kw))
  /\ QQM.arg_context kw = Some (EnhancedLead.context q)
  /\ EnhancedLead.follow_up_questions q
     = supplied_or [] (QQM.arg_follow_up_questions kw).
Proof.
  unfold QQM.init. split.
  - intros H. valid_inv H.
    cbn [EnhancedLead.question EnhancedLead.category
         EnhancedLead.question_priority EnhancedLead.context
         EnhancedLead.follow_up_questions].
    apply required_any in Hfield3, Hfield2, Hfield0.
    apply defaulted_int_range in Hfield1.
    apply defaulted_any_ok in Hfield. tauto.
  - destruct q as [qu ca pr co fu].
    cbn [EnhancedLead.question EnhancedLead.category
         EnhancedLead.question_priority EnhancedLead.context
         EnhancedLead.follow_up_questions].
    intros (H1 & H2 & H3 & H4 & H5).
    apply required_any in H1, H2, H4.
    apply defaulted_int_range in H3.
    apply defaulted_any_ok in H5.
    rewrite H1, H2, H3, H4, H5. reflexivity.
Qed.

Lemma X13_witness_budget_question :
  QQM.init (QQM.Build_kwargs (Some (PyStr.of_string "What is your budget?"))
                             (Some (PyStr.of_string "budget")) None
                             (Some (PyStr.of_string "after need")) None)
  = Valid (EnhancedLead.Build_QualificationQuestion
             (PyStr.of_string "What is your budget?")
             (PyStr.of_string "budget") 1
             (PyStr.of_string "after need") []).
Proof.
  apply (proj2 (X13_qualification_question_construction _ _)).
  cbn. repeat split.
Defined.

(** X14: a [LeadAnalysis] has no required field: its construction fails only
    on a confidence score outside [0, 1], and without arguments it gives
    the analysis of a non-lead: not a potential lead, confidence 0.0, stage
    INITIAL_INTEREST, no signals, questions, actions or risks. *)
Theorem X14_lead_analysis_construction (kw : LAM.kwargs) :
  (is_valid (LAM.init kw) = true <->
   when_supplied (fun v => PyFloat.between 0 v 1 = true)
                 (LAM.arg_confidence_score kw))
  /\ (forall a : EnhancedLead.LeadAnalysis,
         LAM.init kw = Valid a ->
         a = EnhancedLead.Build_LeadAnalysis
               (supplied_or false (LAM.arg_is_potential_lead kw))
               (supplied_or 0%float (LAM.arg_confidence_score kw))
               (supplied_or EnhancedLead.INITIAL_INTEREST
                            (LAM.arg_qualification_stage kw))
               (supplied_or EnhancedLead.LeadSignals_default
                            (LAM.arg_lead_signals kw))
               (supplied_or [] (LAM.arg_suggested_questions kw))
               (supplied_or [] (LAM.arg_next_actions kw))
               (supplied_or [] (LAM.arg_risk_factors kw)))
  /\ (forall es, LAM.init kw = Invalid es ->
                 exists e, es = [("confidence_score", e)]).
Proof.
  unfold LAM.init. rewrite !defaulted_any.
  destruct (LAM.arg_confidence_score kw) as [v|]; cbn [defaulted when_supplied].
  - destruct (float_range 0 1 v) as [w|e] eqn:E.
    + apply float_range_ok in E. destruct E as [R ->].
      split; [cbn; tauto|]. split.
      * intros a H. cbn in H. injection H as <-. reflexivity.
      * intros es H. discriminate H.
    + split; [|split].
      * cbn. split; [discriminate|]. intros R.
        assert (float_range 0 1 v = Ok v) by (apply float_range_ok; auto).
        congruence.
      * intros a H. discriminate H.
      * intros es H. cbn in H. injection H as <-. now exists e.
  - split; [cbn; tauto|]. split.
    + intros a H. cbn in H. injection H as <-. reflexivity.
    + intros es H. discriminate H.
Qed.

Lemma X14_witness_default_analysis :
  LAM.init LAM.no_args
  = Valid (EnhancedLead.Build_LeadAnalysis
             false 0 EnhancedLead.INITIAL_INTEREST
             EnhancedLead.LeadSignals_default [] [] []).
Proof.
  destruct (LAM.init LAM.no_args) as [a|es] eqn:E.
  - rewrite (proj1 (proj2 (X14_lead_analysis_construction LAM.no_args)) a E).
    reflexivity.
  - vm_compute in E. discriminate E.
Defined.

(** X15: a [LeadQualificationStats] is constructed exactly from an argument
    list that supplies all eight fields with both counts at least 0, the
    qualification rate in [0, 100] and the average score in [0, 1]; the
    fields are checked one by one only: the count of qualified leads is not
    compared with the count of analysed leads, nor the rate with their
    quotient. *)
Theorem X15_qualification_stats_construction (kw : LQS.kwargs) (m : LQS.t) :
  LQS.init kw = Valid m <->
  kw = LQS.args_of m
  /\ (0 <= LQS.total_leads_analyzed m)%Z
  /\ (0 <= LQS.qualified_leads m)%Z
  /\ PyFloat.between 0 (LQS.qualification_rate m) 100 = true
  /\ PyFloat.between 0 (LQS.average_score m) 1 = true.
Proof.
  split.
  - intros H. unfold LQS.init in H. valid_inv H.
    apply required_int_ge in Hfield6, Hfield5.
    apply required_float_range in Hfield4, Hfield3.
    apply required_any in Hfield2, Hfield1, Hfield0, Hfield.
    destruct Hfield6 as [E6 R6], Hfield5 as [E5 R5], Hfield4 as [E4 R4],
      Hfield3 as [E3 R3].
    destruct kw. simpl in *. subst. auto.
  - intros (-> & R1 & R2 & R3 & R4). destruct m as [tl ql qr av pb tb ps pe].
    simpl in *. unfold LQS.init, LQS.args_of. simpl.
    rewrite (proj2 (int_ge_ok 0 tl tl) (conj R1 eq_refl)).
    rewrite (proj2 (int_ge_ok 0 ql ql) (conj R2 eq_refl)).
    rewrite (proj2 (float_range_ok 0 100 qr qr) (conj R3 eq_refl)).
    rewrite (proj2 (float_range_ok 0 1 av av) (conj R4 eq_refl)).
    reflexivity.
Qed.

Lemma X15_witness_inconsistent_stats :
  LQS.init (LQS.Build_kwargs (Some 10%Z) (Some 45%Z) (Some 30%float)
                             (Some 0.42%float) (Some []) (Some [])
                             (Some (PyStr.of_string "2024-01-01"))
                             (Some (PyStr.of_string "2024-01-31")))
  = Valid (LQS.Build_t 10 45 30 0.42 [] []
                       (PyStr.of_string "2024-01-01")
                       (PyStr.of_string "2024-01-31")).
Proof.
  apply (proj2 (X15_qualification_stats_construction _ _)).
  split; [reflexivity|]. cbn. repeat split; try lia.
Defined.

(** ** LeadQualificationTrigger *)

Module LQT := LeadQualificationTrigger.

(** X16: a [LeadQualificationTrigger] is constructed if and only if
    trigger_id, lead_score, conversation_id and message_id are supplied.
    The user email is stored as given, without the check that
    [CRMLeadData] applies to its email; a supplied [created_at] is kept, and
    a missing one is the text of one clock reading, the only case in which
    the clock is read. *)
Theorem X16_trigger_construction
        (isoformat : Datetime.datetime -> PyStr.str)
        (clk : Datetime.clock) (kw : LQT.kwargs) (calls n : nat)
        (m : LQT.t) :
  LQT.init isoformat clk kw calls = (Valid m, n) <->
  LQT.arg_trigger_id kw = Some (LQT.trigger_id m)
  /\ LQT.arg_lead_score kw = Some (LQT.lead_score m)
  /\ LQT.arg_conversation_id kw = Some (LQT.conversation_id m)
  /\ LQT.user_email m = LQT.arg_user_email kw
  /\ LQT.arg_message_id kw = Some (LQT.message_id m)
  /\ LQT.trigger_type m
     = supplied_or (PyStr.of_string "lead_qualification")
                   (LQT.arg_trigger_type kw)
  /\ LQT.metadata m = supplied_or [] (LQT.arg_metadata kw)
  /\ (LQT.created_at m, n)
     = match LQT.arg_created_at kw with
       | Some c => (c, calls)
       | None => (isoformat (clk calls), S calls)
       end.
Proof.
  unfold LQT.init, LQT.created_at_field, Datetime.utcnow. split.
  - intros H.
    assert (Hn : n = match LQT.arg_created_at kw with
                     | Some _ => calls | None => S calls end).
    { destruct (LQT.arg_created_at kw); cbv beta iota zeta in H;
        apply pair_equal_spec in H; destruct H as [_ <-]; reflexivity. }
    assert (Hv : (Valid LQT.Build_t
       <*> "trigger_id" ::= required any (LQT.arg_trigger_id kw)
       <*> "lead_score" ::= required any (LQT.arg_lead_score kw)
       <*> "conversation_id" ::= required any (LQT.arg_conversation_id kw)
       <*> "user_email" ::= any (LQT.arg_user_email kw)
       <*> "message_id" ::= required any (LQT.arg_message_id kw)
       <*> "trigger_type" ::=
             defaulted (PyStr.of_string "lead_qualification") any
                       (LQT.arg_trigger_type kw)
       <*> "metadata" ::= defaulted [] any (LQT.arg_metadata kw)
       <*> "created_at" ::=
             Ok (match LQT.arg_created_at kw with
                 | Some c => c | None => isoformat (clk calls) end))%pydantic
       = Valid m).
    { destruct (LQT.arg_created_at kw); cbv beta iota zeta in H;
        apply pair_equal_spec in H; destruct H as [H _]; exact H. }
    clear H. valid_inv Hv.
    cbn [LQT.trigger_id LQT.lead_score LQT.conversation_id LQT.user_email
         LQT.message_id LQT.trigger_type LQT.metadata LQT.created_at].
    apply required_any in Hfield6, Hfield5, Hfield4, Hfield2.
    apply (proj1 (any_ok _ _)) in Hfield3.
    apply defaulted_any_ok in Hfield1, Hfield0.
    injection Hfield as <-.
    repeat split; try assumption.
    rewrite Hn. destruct (LQT.arg_created_at kw); reflexivity.
  - destruct m as [ti ls ci ue mi tt md ca].
    cbn [LQT.trigger_id LQT.lead_score LQT.conversation_id LQT.user_email
         LQT.message_id LQT.trigger_type LQT.metadata LQT.created_at].
    intros (H1 & H2 & H3 & H4 & H5 & H6 & H7 & H8).
    rewrite H1, H2, H3, H5, !defaulted_any, <- H4, H6, H7.
    unfold supplied_or.
    destruct (LQT.arg_created_at kw); injection H8 as -> ->; reflexivity.
Qed.

Definition day_text (_ : Datetime.datetime) : PyStr.str :=
  PyStr.of_string "2024-01-15T10:30:00".

Definition trigger_args : LQT.kwargs :=
  LQT.Build_kwargs (Some (PyStr.of_string "trig_1")) (Some example_response)
                   (Some conv_1) (Some (PyStr.of_string "not an email"))
                   (Some (PyStr.of_string "msg_1")) None None None.

Lemma X16_witness_unchecked_email :
  LQT.init day_text ticking_clock trigger_args 0
  = (Valid (LQT.Build_t (PyStr.of_string "trig_1") example_response conv_1
                        (Some (PyStr.of_string "not an email"))
                        (PyStr.of_string "msg_1")
                        (PyStr.of_string "lead_qualification") []
                        (PyStr.of_string "2024-01-15T10:30:00")),
     1%nat).
Proof.
  apply (proj2 (X16_trigger_construction day_text ticking_clock trigger_args
                  0 1 _)).
  cbn. repeat split.
Defined.

(** ** EnhancedLeadData: the record that is built *)

(** X17: a constructed [EnhancedLeadData] holds its priority, status,
    qualification stage, collection strategy and the other unconstrained
    arguments exactly as given, with the defaults CONVERSATIONAL, LOW, NEW,
    INITIAL_INTEREST, ["chatbot"] and empty records and lists for those
    left out: the priority and the stage are not derived from the lead
    score, and any stage may be set whatever the stage before. *)
Theorem X17_lead_stores_arguments_as_given
        (clk : Datetime.clock) (kw : ELD.kwargs) (calls n : nat)
        (m : ELD.t) :
  ELD.init clk kw calls = (Valid m, n) ->
  ELD.id m = ELD.arg_id kw
  /\ ELD.arg_conversation_id kw = Some (ELD.conversation_id m)
  /\ ELD.arg_chatbot_id kw = Some (ELD.chatbot_id m)
  /\ ELD.contact_info m
     = supplied_or EnhancedLead.ContactInfo_default (ELD.arg_contact_info kw)
  /\ ELD.qualification_data m
     = supplied_or EnhancedLead.QualificationData_default
                   (ELD.arg_qualification_data kw)
  /\ ELD.conversation_metrics m
     = supplied_or CM.default (ELD.arg_conversation_metrics kw)
  /\ ELD.collection_strategy m
     = supplied_or EnhancedLead.CONVERSATIONAL
                   (ELD.arg_collection_strategy kw)
  /\ ELD.priority m = supplied_or EnhancedLead.LOW (ELD.arg_priority kw)
  /\ ELD.status m = supplied_or EnhancedLead.NEW (ELD.arg_status kw)
  /\ ELD.qualification_stage m
     = supplied_or EnhancedLead.INITIAL_INTEREST
                   (ELD.arg_qualification_stage kw)
  /\ ELD.lead_analysis m = ELD.arg_lead_analysis kw
  /\ ELD.last_interaction m = ELD.arg_last_interaction kw
  /\ ELD.source m
     = supplied_or (PyStr.of_string "chatbot") (ELD.arg_source kw)
  /\ ELD.tags m = supplied_or [] (ELD.arg_tags kw)
  /\ ELD.notes m = supplied_or [] (ELD.arg_notes kw).
Proof.
  intros H. apply (f_equal fst) in H. cbn [fst] in H. revert H.
  unfold ELD.init.
  destruct (ELD.created_at_field clk (ELD.arg_created_at kw) calls) as [c n1].
  destruct (ELD.updated_at_field clk (ELD.arg_updated_at kw) n1) as [u n2].
  cbn [fst]. intros H. valid_inv H.
  cbn [ELD.id ELD.conversation_id ELD.chatbot_id ELD.contact_info
       ELD.qualification_data ELD.conversation_metrics
       ELD.collection_strategy ELD.priority ELD.status
       ELD.qualification_stage ELD.lead_analysis ELD.last_interaction
       ELD.source ELD.tags ELD.notes].
  apply (proj1 (any_ok _ _)) in Hfield16, Hfield5, Hfield2.
  apply required_any in Hfield15, Hfield14.
  apply defaulted_any_ok in Hfield13, Hfield12, Hfield11, Hfield10, Hfield8,
    Hfield7, Hfield6, Hfield1, Hfield0, Hfield.
  repeat split; assumption.
Qed.

Lemma X17_witness_minimal_lead :
  ELD.id minimal_lead = None
  /\ Some conv_1 = Some (ELD.conversation_id minimal_lead)
  /\ Some bot_1 = Some (ELD.chatbot_id minimal_lead)
  /\ ELD.contact_info minimal_lead = EnhancedLead.ContactInfo_default
  /\ ELD.qualification_data minimal_lead
     = EnhancedLead.QualificationData_default
  /\ ELD.conversation_metrics minimal_lead = CM.default
  /\ ELD.collection_strategy minimal_lead = EnhancedLead.CONVERSATIONAL
  /\ ELD.priority minimal_lead = EnhancedLead.LOW
  /\ ELD.status minimal_lead = EnhancedLead.NEW
  /\ ELD.qualification_stage minimal_lead = EnhancedLead.INITIAL_INTEREST
  /\ ELD.lead_analysis minimal_lead = None
  /\ ELD.last_interaction minimal_lead = None
  /\ ELD.source minimal_lead = PyStr.of_string "chatbot"
  /\ ELD.tags minimal_lead = []
  /\ ELD.notes minimal_lead = [].
Proof.
  apply (X17_lead_stores_arguments_as_given ticking_clock
           (ELD.minimal_args conv_1 bot_1) 0%nat 3%nat minimal_lead).
  vm_compute. reflexivity.
Defined.

(** The default of [EnhancedLeadData.conversation_metrics] is what the
    constructor of [ConversationMetrics] gives without arguments. *)
Lemma conversation_metrics_default : CM.init CM.no_args = Valid CM.default.
Proof. reflexivity. Qed.
